(** * kikuchipy: similarity metrics for comparing gray-tone patterns

    A shallow embedding of [kikuchipy/indexing/similarity_metrics.py]
    and the properties of its scope model, metric wrapper, shape
    utilities and the two registered metrics (zncc, ndp).

    Arrays are modelled the way NumPy and Dask hand them to the Python
    code: an array object is a typed, shaped window on a buffer, several
    objects may share one buffer (views), NumPy updates buffers in place
    and Dask arrays are immutable and lazy.  Element values are IEEE 754
    binary floats ([SpecFloat]), computed in the precision of the dtype. *)

From Stdlib Require Import ZArith Bool List Lia.
From Stdlib.Floats Require Import SpecFloat.
From stdpp Require Import base option list gmap strings.

Open Scope Z_scope.

(* ===================================================================== *)
(** * Element types *)
(* ===================================================================== *)

(** The floating dtypes of NumPy used by the metrics ([dtype_out] is
    [numpy.float32] by default). *)
Inductive dtype := float32 | float64.

#[global] Instance dtype_eq_dec : EqDecision dtype.
Proof. solve_decision. Defined.

Definition prec (d : dtype) : Z :=
  match d with float32 => 24 | float64 => 53 end.

Definition emax (d : dtype) : Z :=
  match d with float32 => 128 | float64 => 1024 end.

(** NumPy type promotion between the two floating dtypes. *)
Definition result_type (d1 d2 : dtype) : dtype :=
  match d1, d2 with float32, float32 => float32 | _, _ => float64 end.

Abbreviation scalar := spec_float.

Definition f_add (d : dtype) : scalar -> scalar -> scalar := SFadd (prec d) (emax d).
Definition f_sub (d : dtype) : scalar -> scalar -> scalar := SFsub (prec d) (emax d).
Definition f_mul (d : dtype) : scalar -> scalar -> scalar := SFmul (prec d) (emax d).
Definition f_div (d : dtype) : scalar -> scalar -> scalar := SFdiv (prec d) (emax d).
Definition f_sqrt (d : dtype) : scalar -> scalar := SFsqrt (prec d) (emax d).

(** An integer as a float of dtype [d] (round to nearest even). *)
Definition f_of_Z (d : dtype) (z : Z) : scalar :=
  binary_normalize (prec d) (emax d) z 0 false.

(** Rounding of a value to dtype [d], as done by a cast. *)
Definition round_to (d : dtype) (x : scalar) : scalar :=
  match x with
  | S754_finite s m e => binary_round (prec d) (emax d) s m e
  | _ => x
  end.

Definition cast (from to : dtype) (x : scalar) : scalar :=
  if decide (from = to) then x else round_to to x.

(** Python's [int(x)] on a float that must be integer valued. *)
Definition float_to_int (x : scalar) : option Z :=
  match x with
  | S754_zero _ => Some 0
  | S754_finite s m e =>
      let z := if s then Z.neg m else Z.pos m in
      if 0 <=? e then Some (z * 2 ^ e)
      else if (Z.pos m mod 2 ^ (- e) =? 0) then Some (z / 2 ^ (- e))
      else None
  | _ => None
  end.

Definition f_zero : scalar := S754_zero false.
Definition f_one (d : dtype) : scalar := f_of_Z d 1.

(** [lo <= x <= hi] as NumPy compares floats: false as soon as a NaN is
    involved. *)
Definition in_range (lo hi x : scalar) : bool :=
  SFleb lo x && SFleb x hi.

(* ===================================================================== *)
(** * Exceptions and the computation monad *)
(* ===================================================================== *)

(** Python exceptions that the modelled code and the array libraries can
    raise.  [IncompatibleShapeError] is the error named by the
    specification; no statement of [similarity_metrics.py] raises it, a
    user supplied compare function may raise anything. *)
Inductive exn :=
  | KeyError | IndexError | TypeError | ValueError | AxisError
  | ZeroDivisionError | IncompatibleShapeError.

#[global] Instance exn_eq_dec : EqDecision exn.
Proof. solve_decision. Defined.

Inductive result (A : Type) :=
  | Ok (a : A)
  | Raise (e : exn).
Arguments Ok {A} a.
Arguments Raise {A} e.

(** The store of array buffers: buffer [b] holds the elements in
    row-major (C) order.  Allocation appends a buffer. *)
Abbreviation store := (list (list scalar)).

(** Computations that read and write buffers and may raise. *)
Definition M (A : Type) : Type := store -> result (A * store).

#[global] Instance M_ret : MRet M := fun A a st => Ok (a, st).
#[global] Instance M_bind : MBind M := fun A B f m st =>
  match m st with
  | Ok (a, st') => f a st'
  | Raise e => Raise e
  end.

Definition raise {A} (e : exn) : M A := fun _ => Raise e.

(* ===================================================================== *)
(** * Arrays: [numpy.ndarray] and [dask.array.Array] *)
(* ===================================================================== *)

Inductive backend := Numpy | Dask.

#[global] Instance backend_eq_dec : EqDecision backend.
Proof. solve_decision. Defined.

(** An array object.  [base] names the buffer the object reads (and, for
    NumPy, writes); two objects with the same [base] are views of the same
    memory.  A Dask array is lazy: its buffer holds the values it computes
    to, and no operation ever writes to it. *)
Record ndarray := mk_array {
  kind : backend;
  dt : dtype;
  base : nat;
  shape : list nat;
}.

Definition ndim (a : ndarray) : Z := Z.of_nat (length (shape a)).

Definition shape_size (sh : list nat) : nat := foldr Nat.mul 1%nat sh.

Definition data (st : store) (a : ndarray) : list scalar := st !!! base a.

(** The object is backed by a buffer of the right length. *)
Definition wf (st : store) (a : ndarray) : Prop :=
  (base a < length st)%nat /\ length (data st a) = shape_size (shape a).

Definition alloc (k : backend) (d : dtype) (sh : list nat) (xs : list scalar)
  : M ndarray :=
  fun st => Ok (mk_array k d (length st) sh, st ++ [xs]).

Definition write (b : nat) (xs : list scalar) : M unit :=
  fun st => Ok (tt, <[b := xs]> st).

Definition read (a : ndarray) : M (list scalar) :=
  fun st => Ok (data st a, st).

Definition isinstance_ndarray (a : ndarray) : bool := bool_decide (kind a = Numpy).
Definition isinstance_da (a : ndarray) : bool := bool_decide (kind a = Dask).

(** ** Index arithmetic on row-major buffers *)

(** All multi-indices of a shape, in row-major order. *)
Fixpoint indices (sh : list nat) : list (list nat) :=
  match sh with
  | [] => [[]]
  | n :: sh' => flat_map (fun i => map (cons i) (indices sh')) (seq 0 n)
  end.

(** Offset of a multi-index in the buffer. *)
Fixpoint ravel (sh idx : list nat) : nat :=
  match sh, idx with
  | _ :: sh', i :: idx' => (i * shape_size sh' + ravel sh' idx')%nat
  | _, _ => 0%nat
  end.

Definition item (sh : list nat) (xs : list scalar) (idx : list nat) : scalar :=
  nth (ravel sh idx) xs S754_nan.

(** ** Views: indexing with [np.newaxis], [squeeze], [reshape] *)

(** [a[(np.newaxis,) * n]]: [n] leading axes of length one on the same
    buffer.  A tuple times a non-positive integer is the empty tuple. *)
Definition getitem_newaxes (a : ndarray) (n : Z) : ndarray :=
  mk_array (kind a) (dt a) (base a) (replicate (Z.to_nat n) 1%nat ++ shape a).

(** [a.squeeze()]: drops every axis of length one; a view. *)
Definition squeeze (a : ndarray) : ndarray :=
  mk_array (kind a) (dt a) (base a) (filter (fun n => n <> 1%nat) (shape a)).

(** What [np.prod] returns: an integer for a non-empty tuple of integers,
    the float [1.0] for the empty tuple. *)
Inductive np_number :=
  | NpInt (z : Z)
  | NpFloat (x : scalar).

Definition np_prod (l : list nat) : np_number :=
  match l with
  | [] => NpFloat (f_one float64)
  | _ => NpInt (Z.of_nat (shape_size l))
  end.

(** A requested dimension as an integer.  NumPy refuses a float
    ([TypeError]); Dask's [sanitize_index] accepts an integer valued one
    and raises [IndexError] otherwise. *)
Definition dim_of_number (k : backend) (x : np_number) : result Z :=
  match x, k with
  | NpInt z, _ => Ok z
  | NpFloat _, Numpy => Raise TypeError
  | NpFloat x, Dask =>
      match float_to_int x with Some z => Ok z | None => Raise IndexError end
  end.

Fixpoint dims_of_numbers (k : backend) (l : list np_number) : result (list Z) :=
  match l with
  | [] => Ok []
  | x :: l' =>
      match dim_of_number k x with
      | Raise e => Raise e
      | Ok z =>
          match dims_of_numbers k l' with
          | Raise e => Raise e
          | Ok zs => Ok (z :: zs)
          end
      end
  end.

(** Resolution of a requested shape against the number of elements [n]:
    one dimension may be [-1] and is then inferred. *)
Definition resolve_shape (k : backend) (n : nat) (dims : list Z)
  : result (list nat) :=
  let known := filter (fun z => z <> -1) dims in
  let unknown := (length dims - length known)%nat in
  let p := fold_right Z.mul 1 known in
  if bool_decide (Exists (fun z => z < -1) dims) then Raise ValueError
  else match unknown with
  | O => if p =? Z.of_nat n then Ok (Z.to_nat <$> dims) else Raise ValueError
  | S O =>
      if p =? 0 then Raise (match k with Numpy => ValueError | Dask => ZeroDivisionError end)
      else if Z.of_nat n mod p =? 0
      then Ok ((fun z => if decide (z = -1) then Z.to_nat (Z.of_nat n / p) else Z.to_nat z) <$> dims)
      else Raise (match k with Numpy => ValueError | Dask => IndexError end)
  | _ => Raise ValueError
  end.

(** [a.reshape(dims)]: the same elements in the same order under another
    shape. *)
Definition reshape (a : ndarray) (dims : list np_number) : M ndarray :=
  match dims_of_numbers (kind a) dims with
  | Raise e => raise e
  | Ok zs =>
      match resolve_shape (kind a) (shape_size (shape a)) zs with
      | Raise e => raise e
      | Ok sh => mret (mk_array (kind a) (dt a) (base a) sh)
      end
  end.

(** ** Copies *)

(** [a.astype(dtype)]: always a new array ([copy=True] is the default). *)
Definition astype (a : ndarray) (d : dtype) : M ndarray :=
  xs ← read a;
  alloc (kind a) d (shape a) (cast (dt a) d <$> xs).

(** [a.rechunk()]: the same lazy values under another chunking; chunks are
    not observable in the model. *)
Definition rechunk (a : ndarray) : ndarray := a.

(** [a.compute()]: the in-memory array a lazy array evaluates to. *)
Definition compute (a : ndarray) : M ndarray :=
  xs ← read a;
  alloc Numpy (dt a) (shape a) xs.

(** ** Reductions with [keepdims=True] *)

Definition keepdims_shape (axes : list nat) (sh : list nat) : list nat :=
  imap (fun k n => if bool_decide (k ∈ axes) then 1%nat else n) sh.

Definition project (axes : list nat) (idx : list nat) : list nat :=
  imap (fun k i => if bool_decide (k ∈ axes) then 0%nat else i) idx.

(** The elements reduced into output position [o], in buffer order. *)
Definition slice_of (axes : list nat) (sh : list nat) (xs : list scalar)
    (o : list nat) : list scalar :=
  item sh xs <$> filter (fun idx => project axes idx = o) (indices sh).

(** Sum of a slice: the first element, then the others added in order;
    zero for an empty slice. *)
Definition f_sum (d : dtype) (xs : list scalar) : scalar :=
  match xs with
  | [] => f_zero
  | x :: xs' => foldl (f_add d) x xs'
  end.

Definition check_axes (axes : list nat) (a : ndarray) : M unit :=
  if forallb (fun k => k <? length (shape a))%nat axes then mret tt
  else raise AxisError.

(** The values of [a.sum(axis=axes, keepdims=True)]. *)
Definition sum_data (d : dtype) (axes : list nat) (sh : list nat)
    (xs : list scalar) : list scalar :=
  (fun o => f_sum d (slice_of axes sh xs o)) <$> indices (keepdims_shape axes sh).

(** The values of [a.mean(axis=axes, keepdims=True)]: each sum divided by
    the number of reduced elements ([0/0] is NaN for an empty slice). *)
Definition mean_data (d : dtype) (axes : list nat) (sh : list nat)
    (xs : list scalar) : list scalar :=
  (fun o =>
     let sl := slice_of axes sh xs o in
     f_div d (f_sum d sl) (f_of_Z d (Z.of_nat (length sl))))
    <$> indices (keepdims_shape axes sh).

(** [a.sum(axis=axes, keepdims=True)] *)
Definition sum_keepdims (a : ndarray) (axes : list nat) : M ndarray :=
  _ ← check_axes axes a;
  xs ← read a;
  alloc (kind a) (dt a) (keepdims_shape axes (shape a))
    (sum_data (dt a) axes (shape a) xs).

(** [a.mean(axis=axes, keepdims=True)] *)
Definition mean_keepdims (a : ndarray) (axes : list nat) : M ndarray :=
  _ ← check_axes axes a;
  xs ← read a;
  alloc (kind a) (dt a) (keepdims_shape axes (shape a))
    (mean_data (dt a) axes (shape a) xs).

(** ** Element-wise operations *)

(** [a ** 2] and [a ** 0.5]: new arrays. *)
Definition square (a : ndarray) : M ndarray :=
  xs ← read a;
  alloc (kind a) (dt a) (shape a) ((fun x => f_mul (dt a) x x) <$> xs).

Definition sqrt (a : ndarray) : M ndarray :=
  xs ← read a;
  alloc (kind a) (dt a) (shape a) (f_sqrt (dt a) <$> xs).

(** Broadcasting of two shapes, aligned on their last axes. *)
Definition pad_shape (n : nat) (sh : list nat) : list nat :=
  replicate (n - length sh) 1%nat ++ sh.

Fixpoint broadcast_dims (s1 s2 : list nat) : option (list nat) :=
  match s1, s2 with
  | [], [] => Some []
  | n1 :: s1', n2 :: s2' =>
      r ← broadcast_dims s1' s2';
      if decide (n1 = n2) then Some (n1 :: r)
      else if decide (n1 = 1%nat) then Some (n2 :: r)
      else if decide (n2 = 1%nat) then Some (n1 :: r)
      else None
  | _, _ => None
  end.

Definition broadcast_shapes (s1 s2 : list nat) : option (list nat) :=
  let n := (length s1 `max` length s2)%nat in
  broadcast_dims (pad_shape n s1) (pad_shape n s2).

(** The index into an operand of shape [sh] that output index [idx]
    reads: leading output axes the operand lacks are dropped, axes of
    length one are read at 0. *)
Definition operand_index (sh : list nat) (idx : list nat) : list nat :=
  zip_with (fun n i => if decide (n = 1%nat) then 0%nat else i)
    sh (drop (length idx - length sh) idx).

Definition broadcast_op (op : scalar -> scalar -> scalar)
    (sh1 : list nat) (xs1 : list scalar) (sh2 : list nat) (xs2 : list scalar)
    (out : list nat) : list scalar :=
  (fun idx => op (item sh1 xs1 (operand_index sh1 idx))
                 (item sh2 xs2 (operand_index sh2 idx)))
    <$> indices out.

(** The augmented assignments [a -= b] and [a /= b].  On a NumPy array
    the result is written into the buffer of [a] and the name stays bound
    to the same object; the broadcast shape must be the shape of [a].  A
    Dask array has no in-place operators: the name is rebound to the new
    lazy array [a - b] (or [a / b]). *)
Definition inplace (op : dtype -> scalar -> scalar -> scalar)
    (a b : ndarray) : M ndarray :=
  match broadcast_shapes (shape a) (shape b) with
  | None => raise ValueError
  | Some out =>
      xs ← read a;
      ys ← read b;
      let d := result_type (dt a) (dt b) in
      let zs := broadcast_op (op d) (shape a) xs (shape b) ys out in
      match kind a with
      | Numpy =>
          if decide (out = shape a)
          then _ ← write (base a) (cast d (dt a) <$> zs); mret a
          else raise ValueError
      | Dask => alloc Dask d out zs
      end
  end.

Definition isub : ndarray -> ndarray -> M ndarray := inplace f_sub.
Definition itruediv : ndarray -> ndarray -> M ndarray := inplace f_div.

(** ** [da.einsum("ijkl,mkl->ijm", a, b)] *)

(** The length of a contracted label shared by two operands. *)
Definition label_dim (n1 n2 : nat) : option nat :=
  if decide (n1 = n2) then Some n1
  else if decide (n1 = 1%nat) then Some n2
  else if decide (n2 = 1%nat) then Some n1
  else None.

(** The contraction over the two signal axes.  The result is always a
    lazy Dask array; products are summed in row-major order of [(k, l)]. *)
Definition einsum_ijkl_mkl_ijm (a b : ndarray) : M ndarray :=
  match shape a, shape b with
  | [ni; nj; nk; nl], [nm; nk'; nl'] =>
      match label_dim nk nk', label_dim nl nl' with
      | Some k, Some l =>
          xs ← read a;
          ys ← read b;
          let d := result_type (dt a) (dt b) in
          alloc Dask d [ni; nj; nm]
            ((fun o =>
                match o with
                | [i; j; m] =>
                    f_sum d
                      ((fun kl =>
                          match kl with
                          | [ik; il] =>
                              f_mul d
                                (item (shape a) xs (operand_index (shape a) [i; j; ik; il]))
                                (item (shape b) ys (operand_index (shape b) [m; ik; il]))
                          | _ => S754_nan
                          end) <$> indices [k; l])
                | _ => S754_nan
                end) <$> indices [ni; nj; nm])
      | _, _ => raise ValueError
      end
  | _, _ => raise ValueError
  end.

(* ===================================================================== *)
(** * The scope model *)
(* ===================================================================== *)

Inductive MetricScope :=
  | MANY_TO_MANY
  | ONE_TO_MANY
  | ONE_TO_ONE
  | MANY_TO_ONE.

#[global] Instance MetricScope_eq_dec : EqDecision MetricScope.
Proof. solve_decision. Defined.

(** The two classes of metric objects. *)
Inductive metric_class := SimilarityMetric | FlatSimilarityMetric.

#[global] Instance metric_class_eq_dec : EqDecision metric_class.
Proof. solve_decision. Defined.

(** Class attribute [_EXPT_SIM_NDIM_TO_SCOPE]; [FlatSimilarityMetric]
    overrides the table of [SimilarityMetric]. *)
Definition _EXPT_SIM_NDIM_TO_SCOPE (c : metric_class) : gmap (Z * Z) MetricScope :=
  match c with
  | SimilarityMetric =>
      <[(4, 3) := MANY_TO_MANY]> (<[(2, 3) := ONE_TO_MANY]>
      (<[(4, 2) := MANY_TO_ONE]> (<[(2, 2) := ONE_TO_ONE]> ∅)))
  | FlatSimilarityMetric =>
      <[(2, 2) := MANY_TO_MANY]> (<[(1, 2) := ONE_TO_MANY]>
      (<[(3, 1) := MANY_TO_ONE]> (<[(1, 1) := ONE_TO_ONE]> ∅)))
  end.

(** Class attribute [_SCOPE_TO_EXPT_SIM_NDIM], a dictionary with one entry
    per scope. *)
Definition _SCOPE_TO_EXPT_SIM_NDIM (c : metric_class) (s : MetricScope) : Z * Z :=
  match c, s with
  | SimilarityMetric, MANY_TO_MANY => (4, 3)
  | SimilarityMetric, ONE_TO_MANY => (2, 3)
  | SimilarityMetric, MANY_TO_ONE => (4, 2)
  | SimilarityMetric, ONE_TO_ONE => (2, 2)
  | FlatSimilarityMetric, MANY_TO_MANY => (2, 2)
  | FlatSimilarityMetric, ONE_TO_MANY => (1, 2)
  | FlatSimilarityMetric, MANY_TO_ONE => (3, 1)
  | FlatSimilarityMetric, ONE_TO_ONE => (1, 1)
  end.

(** Class attribute [_SCOPE_TO_LOWER_SCOPES] (not overridden). *)
Definition _SCOPE_TO_LOWER_SCOPES (s : MetricScope) : list MetricScope :=
  match s with
  | MANY_TO_MANY => [MANY_TO_ONE; ONE_TO_MANY; ONE_TO_ONE]
  | ONE_TO_MANY => [ONE_TO_MANY; ONE_TO_ONE]
  | ONE_TO_ONE => []
  | MANY_TO_ONE => [MANY_TO_ONE; ONE_TO_ONE]
  end.

(* ===================================================================== *)
(** * Metric objects *)
(* ===================================================================== *)

(** A metric function [metric_func(experimental, simulated)]. *)
Definition compare_fn : Type := ndarray -> ndarray -> M ndarray.

(** The attributes set by [SimilarityMetric.__init__], with the class of
    the object. *)
Record Metric := mk_metric {
  metric_cls : metric_class;
  _metric_func : compare_fn;
  _make_compatible_to_lower_scopes : bool;
  _dtype_out : dtype;
  sign : Z;
  flat : bool;
  scope : MetricScope;
}.

Definition make_similarity_metric (metric_func : compare_fn)
    (greater_is_better : bool) (scope : MetricScope) (flat : bool)
    (make_compatible_to_lower_scopes : bool) (dtype_out : dtype) : Metric :=
  let sign := if greater_is_better then 1 else -1 in
  if flat then
    mk_metric FlatSimilarityMetric metric_func make_compatible_to_lower_scopes
      dtype_out sign flat scope
  else
    mk_metric SimilarityMetric metric_func make_compatible_to_lower_scopes
      dtype_out sign flat scope.

(** [SimilarityMetric._is_compatible] *)
Definition _is_compatible (self : Metric) (expt_ndim sim_ndim : Z) : bool :=
  let '(expt_ndim, sim_ndim) :=
    if flat self then (expt_ndim `div` 2, sim_ndim - 1)
    else (expt_ndim, sim_ndim) in
  match _EXPT_SIM_NDIM_TO_SCOPE (metric_cls self) !! (expt_ndim, sim_ndim) with
  | None => false
  | Some inferred_scope =>
      if decide (inferred_scope = scope self) then true
      else if _make_compatible_to_lower_scopes self
           then bool_decide (inferred_scope ∈ _SCOPE_TO_LOWER_SCOPES (scope self))
           else false
  end.

(** [SimilarityMetric._expand_dims_to_match_scope] *)
Definition _expand_dims_to_match_scope (self : Metric) (expt sim : ndarray)
  : ndarray * ndarray :=
  let '(expt_scope_ndim, sim_scope_ndim) :=
    _SCOPE_TO_EXPT_SIM_NDIM (metric_cls self) (scope self) in
  let expt := getitem_newaxes expt (expt_scope_ndim - ndim expt) in
  let sim := getitem_newaxes sim (sim_scope_ndim - ndim sim) in
  (expt, sim).

(** [_get_nav_shape]: the dictionary display evaluates [expt.shape[0]]
    before the lookup, which fails on a 0-d array. *)
Definition _get_nav_shape (expt : ndarray) : result (list nat) :=
  match shape expt with
  | [] => Raise IndexError
  | n0 :: _ =>
      match length (shape expt) with
      | 2%nat => Ok []
      | 3%nat => Ok [n0]
      | 4%nat => Ok (take 2 (shape expt))
      | _ => Raise KeyError
      end
  end.

(** [_get_sig_shape]: [expt.shape[-2:]] *)
Definition _get_sig_shape (expt : ndarray) : list nat :=
  drop (length (shape expt) - 2) (shape expt).

(** [_get_number_of_simulated] *)
Definition _get_number_of_simulated (sim : ndarray) : nat :=
  match shape sim with
  | [n; _; _] => n
  | _ => 1%nat
  end.

(** [SimilarityMetric._measure] and its override
    [FlatSimilarityMetric._measure]. *)
Definition _measure (self : Metric) (experimental simulated : ndarray)
  : M ndarray :=
  match metric_cls self with
  | SimilarityMetric => _metric_func self experimental simulated
  | FlatSimilarityMetric =>
      match _get_nav_shape experimental with
      | Raise e => raise e
      | Ok nav_shape =>
          let sig_shape := _get_sig_shape experimental in
          let nav_flat_size := np_prod nav_shape in
          let sig_flat_size := np_prod sig_shape in
          experimental ← reshape experimental [nav_flat_size; sig_flat_size];
          simulated ← reshape simulated [NpInt (-1); sig_flat_size];
          _metric_func self experimental simulated
      end
  end.

(** [SimilarityMetric.__call__] *)
Definition __call__ (self : Metric) (experimental simulated : ndarray)
  : M ndarray :=
  let dtype := _dtype_out self in
  experimental ← astype experimental dtype;
  simulated ← astype simulated dtype;
  let experimental :=
    if isinstance_da experimental then rechunk experimental else experimental in
  let simulated :=
    if isinstance_da simulated then rechunk simulated else simulated in
  let '(experimental, simulated) :=
    if _make_compatible_to_lower_scopes self
    then _expand_dims_to_match_scope self experimental simulated
    else (experimental, simulated) in
  r ← _measure self experimental simulated;
  mret (squeeze r).

(* ===================================================================== *)
(** * Shape and normalisation utilities *)
(* ===================================================================== *)

(** [_expand_dims_to_many_to_many] *)
Definition _expand_dims_to_many_to_many (expt sim : ndarray) (flat : bool)
  : ndarray * ndarray :=
  let metric_cls := if flat then FlatSimilarityMetric else SimilarityMetric in
  let '(expt_scope_ndim, sim_scope_ndim) :=
    _SCOPE_TO_EXPT_SIM_NDIM metric_cls MANY_TO_MANY in
  let expt := getitem_newaxes expt (expt_scope_ndim - ndim expt) in
  let sim := getitem_newaxes sim (sim_scope_ndim - ndim sim) in
  (expt, sim).

(** [1 not in expt.shape + sim.shape] *)
Definition no_singleton (expt sim : ndarray) : bool :=
  negb (bool_decide (1%nat ∈ shape expt ++ shape sim)).

(** [_zero_mean] *)
Definition _zero_mean (expt sim : ndarray) (flat : bool)
  : M (ndarray * ndarray) :=
  let squeeze_ := no_singleton expt sim in
  let '(expt, sim) := _expand_dims_to_many_to_many expt sim flat in
  let expt_mean_axis := if flat then [1%nat] else [2%nat; 3%nat] in
  let sim_mean_axis := if flat then [1%nat] else [1%nat; 2%nat] in
  m ← mean_keepdims expt expt_mean_axis;
  expt ← isub expt m;
  m ← mean_keepdims sim sim_mean_axis;
  sim ← isub sim m;
  if squeeze_ then mret (squeeze expt, squeeze sim)
  else mret (expt, sim).

(** [_normalize] *)
Definition _normalize (expt sim : ndarray) (flat : bool)
  : M (ndarray * ndarray) :=
  let squeeze_ := no_singleton expt sim in
  let '(expt, sim) := _expand_dims_to_many_to_many expt sim flat in
  let expt_sum_axis := if flat then [1%nat] else [2%nat; 3%nat] in
  let sim_sum_axis := if flat then [1%nat] else [1%nat; 2%nat] in
  sq ← square expt;
  s ← sum_keepdims sq expt_sum_axis;
  n ← sqrt s;
  expt ← itruediv expt n;
  sq ← square sim;
  s ← sum_keepdims sq sim_sum_axis;
  n ← sqrt s;
  sim ← itruediv sim n;
  if squeeze_ then mret (squeeze expt, squeeze sim)
  else mret (expt, sim).

(* ===================================================================== *)
(** * The concrete metrics and the registry *)
(* ===================================================================== *)

(** [_zncc_einsum] *)
Definition _zncc_einsum (experimental simulated : ndarray) : M ndarray :=
  '(experimental, simulated) ← _zero_mean experimental simulated false;
  '(experimental, simulated) ← _normalize experimental simulated false;
  zncc ← einsum_ijkl_mkl_ijm experimental simulated;
  if isinstance_ndarray experimental && isinstance_ndarray simulated
  then compute zncc
  else mret zncc.

(** [_ndp_einsum] *)
Definition _ndp_einsum (experimental simulated : ndarray) : M ndarray :=
  '(experimental, simulated) ← _normalize experimental simulated false;
  ndp ← einsum_ijkl_mkl_ijm experimental simulated;
  if isinstance_ndarray experimental && isinstance_ndarray simulated
  then compute ndp
  else mret ndp.

(** [SIMILARITY_METRICS], a dictionary with the two keys "zncc" and
    "ndp". *)
Definition zncc_metric : Metric :=
  make_similarity_metric _zncc_einsum true MANY_TO_MANY false true float32.

Definition ndp_metric : Metric :=
  make_similarity_metric _ndp_einsum true MANY_TO_MANY false true float32.

Definition SIMILARITY_METRICS : list (string * Metric) :=
  [("zncc"%string, zncc_metric); ("ndp"%string, ndp_metric)].

(* ===================================================================== *)
(** * The compatibility condition of the specification *)
(* ===================================================================== *)

(** A scope inferred from the input ranks is accepted by a metric when it
    is the declared scope or, under automatic promotion, one of the lower
    scopes of the declared scope. *)
Definition scope_allowed (self : Metric) (sc : MetricScope) : Prop :=
  sc = scope self \/
  (_make_compatible_to_lower_scopes self = true /\
   sc ∈ _SCOPE_TO_LOWER_SCOPES (scope self)).

(** The condition in the words of the specification: the pair of input
    ranks itself is looked up in the rank-pair table of the metric's
    representation. *)
Definition spec_is_compatible (self : Metric) (expt_ndim sim_ndim : Z) : Prop :=
  exists sc,
    _EXPT_SIM_NDIM_TO_SCOPE (metric_cls self) !! (expt_ndim, sim_ndim) = Some sc /\
    scope_allowed self sc.

(* ===================================================================== *)
(** * Predicates on objects and stores used in the statements *)
(* ===================================================================== *)

(** [st'] still has every buffer of [st] and agrees with [st] on the
    buffers that satisfy [keep]. *)
Definition preserves (keep : nat -> Prop) (st st' : store) : Prop :=
  (length st <= length st')%nat /\
  forall b, (b < length st)%nat -> keep b -> st' !! b = st !! b.

(** [b] is not the buffer of the in-memory array [x]. *)
Definition not_buffer_of (x : ndarray) (b : nat) : Prop :=
  kind x = Numpy -> b <> base x.

(** What the name of [x] is bound to after an augmented assignment in
    store [st]: the object [x] itself for NumPy, a new lazy array for
    Dask. *)
Definition rebound (st : store) (x x' : ndarray) : Prop :=
  shape x' = shape x /\ kind x' = kind x /\ dt x' = dt x /\
  (kind x = Numpy -> x' = x) /\
  (kind x = Dask -> (length st <= base x')%nat).

(** What a utility ([_zero_mean], [_normalize]) hands back for the inputs
    [e] and [s] in store [st]: objects of the promoted (or re-squeezed)
    shapes, of the kinds and dtypes of the inputs; for an in-memory input
    a view of the input's own buffer, for a lazy input a new array; and a
    store that differs from [st] at most in the buffers of the in-memory
    inputs. *)
Definition utility_returns (e s : ndarray) (flat : bool) (st : store)
    (e' s' : ndarray) (st' : store) : Prop :=
  let '(ex, sx) := _expand_dims_to_many_to_many e s flat in
  shape e' = (if no_singleton e s then shape (squeeze ex) else shape ex) /\
  shape s' = (if no_singleton e s then shape (squeeze sx) else shape sx) /\
  kind e' = kind e /\ kind s' = kind s /\
  dt e' = dt e /\ dt s' = dt s /\
  (kind e = Numpy -> base e' = base e) /\
  (kind s = Numpy -> base s' = base s) /\
  (kind e = Dask -> (length st <= base e')%nat) /\
  (kind s = Dask -> (length st <= base s')%nat) /\
  preserves (fun b => not_buffer_of e b /\ not_buffer_of s b) st st'.

(** The effect of a utility on the store, for inputs [e], [s] and results
    [e'], [s']: only buffers of in-memory inputs are written; an in-memory
    input is updated in place and handed back as a view of its own buffer;
    a lazy input keeps its values. *)
Definition writes_only_in_memory_inputs (e s : ndarray) (st : store)
    (e' s' : ndarray) (st' : store) : Prop :=
  preserves (fun b => not_buffer_of e b /\ not_buffer_of s b) st st' /\
  (kind e = Numpy -> base e' = base e /\ data st' e = data st' e') /\
  (kind s = Numpy -> base s' = base s /\ data st' s = data st' s') /\
  (kind e = Dask -> (base e < length st)%nat -> not_buffer_of s (base e) ->
   data st' e = data st e) /\
  (kind s = Dask -> (base s < length st)%nat -> not_buffer_of e (base s) ->
   data st' s = data st s).

(** The values of [x - x.mean(axis=axes, keepdims=True)] and of
    [x / (x ** 2).sum(axis=axes, keepdims=True) ** 0.5] for an array of
    dtype [d] and shape [sh] that holds the values [xs]. *)
Definition minus_mean (d : dtype) (axes sh : list nat) (xs : list scalar)
  : list scalar :=
  broadcast_op (f_sub d) sh xs (keepdims_shape axes sh) (mean_data d axes sh xs) sh.

Definition over_norm (d : dtype) (axes sh : list nat) (xs : list scalar)
  : list scalar :=
  broadcast_op (f_div d) sh xs (keepdims_shape axes sh)
    (f_sqrt d <$> sum_data d axes sh ((fun v => f_mul d v v) <$> xs)) sh.

(** The values that [_zero_mean] and [_normalize] compute from the values
    that [e] and [s] hold in store [st]: each pattern minus its mean, and
    each pattern divided by its L2 norm. *)
Definition zero_mean_values (flat : bool) (st : store) (e s : ndarray)
  : list scalar * list scalar :=
  let '(ex, sx) := _expand_dims_to_many_to_many e s flat in
  (minus_mean (dt ex) (if flat then [1%nat] else [2%nat; 3%nat]) (shape ex) (data st ex),
   minus_mean (dt sx) (if flat then [1%nat] else [1%nat; 2%nat]) (shape sx) (data st sx)).

Definition normalize_values (flat : bool) (st : store) (e s : ndarray)
  : list scalar * list scalar :=
  let '(ex, sx) := _expand_dims_to_many_to_many e s flat in
  (over_norm (dt ex) (if flat then [1%nat] else [2%nat; 3%nat]) (shape ex) (data st ex),
   over_norm (dt sx) (if flat then [1%nat] else [1%nat; 2%nat]) (shape sx) (data st sx)).

(** After a utility has returned [e'] and [s'] for the inputs [e] and [s]:
    the returned arrays hold the new values [ve] and [vs]; so does each
    in-memory input, which has been overwritten; a lazy input holds the
    values it held in [st]. *)
Definition updated_in_place (vals : list scalar * list scalar)
    (e s : ndarray) (st : store) (e' s' : ndarray) (st' : store) : Prop :=
  data st' e' = vals.1 /\ data st' s' = vals.2 /\
  (kind e = Numpy -> data st' e = vals.1) /\
  (kind s = Numpy -> data st' s = vals.2) /\
  (kind e = Dask -> data st' e = data st e) /\
  (kind s = Dask -> data st' s = data st s).

(** The arrays that [__call__] hands to [_measure], with the store at that
    point: the casts of the two inputs, promoted to the ranks of the
    declared scope when promotion is enabled. *)
Definition cast_and_promoted (self : Metric) (e s : ndarray) (st : store)
  : ndarray * ndarray * store :=
  let e1 := mk_array (kind e) (_dtype_out self) (length st) (shape e) in
  let st1 := st ++ [cast (dt e) (_dtype_out self) <$> data st e] in
  let s1 := mk_array (kind s) (_dtype_out self) (length st1) (shape s) in
  let st2 := st1 ++ [cast (dt s) (_dtype_out self) <$> data st1 s] in
  let '(e2, s2) :=
    if _make_compatible_to_lower_scopes self
    then _expand_dims_to_match_scope self e1 s1
    else (e1, s1) in
  (e2, s2, st2).

(** The result [r] is an in-memory array exactly when both inputs are, and
    a lazy array exactly when one of them is. *)
Definition materialised_iff_in_memory (e s r : ndarray) : Prop :=
  (kind r = Numpy <-> kind e = Numpy /\ kind s = Numpy) /\
  (kind r = Dask <-> kind e = Dask \/ kind s = Dask).

(** The final [.squeeze()] of [__call__], on the outcome of the
    measurement. *)
Definition squeezed (r : result (ndarray * store)) : result (ndarray * store) :=
  match r with
  | Ok (a, st) => Ok (squeeze a, st)
  | Raise e => Raise e
  end.

(** A compare function whose squeezed result does not change when
    singleton axes are prepended to two rank-2 arguments. *)
Definition promotion_invariant (f : compare_fn) : Prop :=
  forall a b st,
    ndim a = 2 -> ndim b = 2 ->
    squeezed (f (getitem_newaxes a 2) (getitem_newaxes b 1) st)
    = squeezed (f a b st).

(** Number of navigation points and of signal elements of a nested
    experimental array: the products of the axes before the last two and
    of the last two axes. *)
Definition nav_size (a : ndarray) : nat :=
  shape_size (take (length (shape a) - 2) (shape a)).

Definition sig_size (a : ndarray) : nat :=
  shape_size (_get_sig_shape a).

(** The same buffer seen under a two-dimensional shape. *)
Definition as_matrix (a : ndarray) (rows cols : nat) : ndarray :=
  mk_array (kind a) (dt a) (base a) [rows; cols].


(** A compare function that writes to no buffer but those of its two
    arguments (and to buffers it allocates). *)
Definition writes_only_its_arguments (f : compare_fn) : Prop :=
  forall a b st r st',
    f a b st = Ok (r, st') ->
    preserves (fun k => not_buffer_of a k /\ not_buffer_of b k) st st'.

(* ===================================================================== *)
(** * Concrete arrays used in the examples *)
(* ===================================================================== *)

Definition f32 (z : Z) : scalar := f_of_Z float32 z.

(** [1 + 2^-23], the float32 next above 1. *)
Definition f32_one_plus_ulp : scalar := S754_finite false 8388609 (-23).


Definition np32 (b : nat) (sh : list nat) : ndarray := mk_array Numpy float32 b sh.
Definition da32 (b : nat) (sh : list nat) : ndarray := mk_array Dask float32 b sh.

(** Six buffers: two 2x2 patterns, a constant pattern, an all-zero
    pattern, and two buffers holding [1 + 2^-23, 1]. *)
Definition example_store : store :=
  [ f32 <$> [1; 2; 3; 4];
    f32 <$> [1; 2; 3; 5];
    f32 <$> [1; 1; 1; 1];
    f32 <$> [0; 0; 0; 0];
    [f32_one_plus_ulp; f32 1];
    [f32_one_plus_ulp; f32 1] ].

(** [-3/2, -1/2, 1/2, 3/2] and the like in float32. *)
Definition f32_half (z : Z) : scalar := f_div float32 (f32 z) (f32 2).

(** Two compare functions for the examples: [lambda e, s: e], and the
    dot product of the two operands read as flat sequences, which does
    not look at their shapes. *)
Definition first_argument : compare_fn := fun e _ => mret e.

Definition flat_dot : compare_fn := fun e s =>
  xs ← read e;
  ys ← read s;
  let d := result_type (dt e) (dt s) in
  alloc Numpy d [1%nat] [f_sum d (zip_with (f_mul d) xs ys)].

(* ===================================================================== *)
(** * Properties of the scope model *)
(* ===================================================================== *)

Lemma is_compatible_spec (m : Metric) (e s : Z) :
  _is_compatible m e s = true <->
  exists sc,
    _EXPT_SIM_NDIM_TO_SCOPE (metric_cls m)
      !! (if flat m then (e `div` 2, s - 1) else (e, s)) = Some sc /\
    scope_allowed m sc.
Proof.
  unfold _is_compatible, scope_allowed.
  destruct (flat m);
    (match goal with
     | |- context [ _ !! ?k ] =>
         destruct (_EXPT_SIM_NDIM_TO_SCOPE (metric_cls m) !! k) as [sc|] eqn:Hk
     end;
     [ | split; [discriminate | intros (sc & Hsc & _); discriminate] ]);
    (destruct (decide (sc = scope m)) as [Heq|Hne];
     [ split; [intros _; exists sc; auto | reflexivity] | ]);
    (destruct (_make_compatible_to_lower_scopes m);
     [ rewrite bool_decide_eq_true; split;
       [ intros Hin; exists sc; auto
       | intros (sc' & Hsc' & [Heq | [_ Hin]]);
         injection Hsc' as <-; [contradiction | exact Hin] ]
     | split; [discriminate |
         intros (sc' & Hsc' & [Heq | [Hf _]]);
         [ injection Hsc' as <-; contradiction | discriminate ] ] ]).
Qed.

(** C1 (as amended).  [_is_compatible] returns true exactly when the rank
    pair it looks up maps to an accepted scope; for a metric whose [flat]
    attribute is set, the pair looked up is not the pair of input ranks
    but [(expt_ndim // 2, sim_ndim - 1)]. *)
Theorem is_compatible_iff_converted_lookup (m : Metric) (expt_ndim sim_ndim : Z) :
  _is_compatible m expt_ndim sim_ndim = true <->
  exists sc,
    _EXPT_SIM_NDIM_TO_SCOPE (metric_cls m)
      !! (if flat m then (expt_ndim `div` 2, sim_ndim - 1)
          else (expt_ndim, sim_ndim)) = Some sc /\
    scope_allowed m sc.
Proof. apply is_compatible_spec. Qed.

(** C1, counterexample.  A flattened many-to-many metric without
    promotion rejects the rank pair (2, 2), which the flattened table maps
    to its declared scope, and accepts the pair (4, 3), which is not in
    the flattened table. *)
Lemma is_compatible_not_direct_lookup :
  let m := make_similarity_metric _ndp_einsum true MANY_TO_MANY true false float32 in
  (_is_compatible m 2 2 = false /\ spec_is_compatible m 2 2) /\
  (_is_compatible m 4 3 = true /\ ~ spec_is_compatible m 4 3).
Proof.
  cbv zeta. split; split.
  - reflexivity.
  - exists MANY_TO_MANY. split; [reflexivity | left; reflexivity].
  - reflexivity.
  - intros (sc & Hsc & _). vm_compute in Hsc. discriminate.
Qed.

(** C10.  A flat metric looks up [(expt_ndim // 2, sim_ndim - 1)] in the
    flat table.  With declared scope many-to-one, the nested many-to-one
    ranks (4, 2) become (2, 1), which the flat table does not contain, so
    the check fails whatever the promotion setting; the ranks (6, 2)
    become (3, 1), the many-to-one entry, and are accepted. *)
Theorem flat_is_compatible_halves_and_decrements (m : Metric) :
  metric_cls m = FlatSimilarityMetric ->
  flat m = true ->
  (forall expt_ndim sim_ndim,
     _is_compatible m expt_ndim sim_ndim = true <->
     exists sc,
       _EXPT_SIM_NDIM_TO_SCOPE FlatSimilarityMetric
         !! (expt_ndim `div` 2, sim_ndim - 1) = Some sc /\
       scope_allowed m sc) /\
  (scope m = MANY_TO_ONE ->
     (4 `div` 2, 2 - 1) = (2, 1) /\
     _EXPT_SIM_NDIM_TO_SCOPE FlatSimilarityMetric !! (2, 1) = None /\
     _is_compatible m 4 2 = false /\
     (6 `div` 2, 2 - 1) = (3, 1) /\
     _EXPT_SIM_NDIM_TO_SCOPE FlatSimilarityMetric !! (3, 1) = Some MANY_TO_ONE /\
     _is_compatible m 6 2 = true).
Proof.
  intros Hcls Hflat. split.
  - intros e s. rewrite is_compatible_spec, Hcls, Hflat. reflexivity.
  - intros Hscope. unfold _is_compatible. rewrite Hcls, Hflat, Hscope.
    repeat split; reflexivity.
Qed.

Lemma flat_is_compatible_halves_and_decrements_witness :
  let m := make_similarity_metric _ndp_einsum true MANY_TO_ONE true true float32 in
  _is_compatible m 4 2 = false /\ _is_compatible m 6 2 = true.
Proof.
  cbv zeta.
  destruct (flat_is_compatible_halves_and_decrements
              (make_similarity_metric _ndp_einsum true MANY_TO_ONE true true float32)
              eq_refl eq_refl) as [_ H].
  destruct (H eq_refl) as (_ & _ & H42 & _ & _ & H62).
  split; [exact H42 | exact H62].
Defined.

(* ===================================================================== *)
(** * Reasoning about computations *)
(* ===================================================================== *)

Lemma bind_eq {A B} (c : M A) (f : A -> M B) st a st1 :
  c st = Ok (a, st1) -> (c ≫= f) st = f a st1.
Proof. intros H. unfold mbind, M_bind. rewrite H. reflexivity. Qed.

Lemma bind_Ok_inv {A B} (c : M A) (f : A -> M B) st b st' :
  (c ≫= f) st = Ok (b, st') ->
  exists a st1, c st = Ok (a, st1) /\ f a st1 = Ok (b, st').
Proof.
  unfold mbind, M_bind. destruct (c st) as [[a st1]|e]; [|discriminate].
  intros H. exists a, st1. split; [reflexivity | exact H].
Qed.

Lemma bind_Raise_inv {A B} (c : M A) (f : A -> M B) st e :
  (c ≫= f) st = Raise e ->
  c st = Raise e \/ exists a st1, c st = Ok (a, st1) /\ f a st1 = Raise e.
Proof.
  unfold mbind, M_bind. destruct (c st) as [[a st1]|e']; intros H.
  - right. exists a, st1. split; [reflexivity | exact H].
  - left. injection H as ->. reflexivity.
Qed.

(* ===================================================================== *)
(** * Shapes *)
(* ===================================================================== *)

Lemma length_keepdims_shape axes sh :
  length (keepdims_shape axes sh) = length sh.
Proof. unfold keepdims_shape. apply length_imap. Qed.

Lemma broadcast_dims_imap (g : nat -> bool) (sh : list nat) :
  broadcast_dims sh (imap (fun k n => if g k then 1%nat else n) sh) = Some sh.
Proof.
  revert g. induction sh as [|n sh IH]; intros g; [reflexivity|].
  cbn [imap broadcast_dims].
  pose proof (IH (fun k => g (S k))) as IH'.
  unfold compose. rewrite IH'. cbn.
  destruct (g 0%nat).
  - destruct (decide (n = 1%nat)) as [->|Hn]; [reflexivity|].
    rewrite decide_True by reflexivity. reflexivity.
  - rewrite decide_True by reflexivity. reflexivity.
Qed.

Lemma pad_shape_same sh : pad_shape (length sh) sh = sh.
Proof. unfold pad_shape. rewrite Nat.sub_diag. reflexivity. Qed.

Lemma broadcast_keepdims axes sh :
  broadcast_shapes sh (keepdims_shape axes sh) = Some sh.
Proof.
  unfold broadcast_shapes. rewrite length_keepdims_shape, Nat.max_id.
  rewrite pad_shape_same.
  rewrite <- (length_keepdims_shape axes sh) at 1. rewrite pad_shape_same.
  apply (broadcast_dims_imap (fun k => bool_decide (k ∈ axes))).
Qed.

Lemma filter_no_singleton (sh : list nat) :
  1%nat ∉ sh -> filter (fun n => n <> 1%nat) sh = sh.
Proof.
  induction sh as [|n sh IH]; intros H; [reflexivity|].
  rewrite not_elem_of_cons in H. destruct H as [Hn Hsh].
  rewrite filter_cons_True by congruence. rewrite IH by assumption. reflexivity.
Qed.

Lemma filter_replicate_ones n (sh : list nat) :
  filter (fun n => n <> 1%nat) (replicate n 1%nat ++ sh)
  = filter (fun n => n <> 1%nat) sh.
Proof.
  induction n as [|n IH]; [reflexivity|].
  cbn [replicate app]. rewrite filter_cons_False by (intros H; apply H; reflexivity).
  exact IH.
Qed.

(* ===================================================================== *)
(** * The array primitives, as equations on the store *)
(* ===================================================================== *)

Lemma cast_same d x : cast d d x = x.
Proof. unfold cast. rewrite decide_True by reflexivity. reflexivity. Qed.

Lemma fmap_cast_same d (xs : list scalar) : cast d d <$> xs = xs.
Proof.
  induction xs as [|x xs IH]; [reflexivity|].
  cbn [fmap list_fmap]. rewrite cast_same. f_equal. exact IH.
Qed.

Lemma result_type_same d : result_type d d = d.
Proof. destruct d; reflexivity. Qed.

Lemma astype_eq a d st :
  astype a d st
  = Ok (mk_array (kind a) d (length st) (shape a),
        st ++ [cast (dt a) d <$> data st a]).
Proof. reflexivity. Qed.

Lemma compute_eq a st :
  compute a st = Ok (mk_array Numpy (dt a) (length st) (shape a), st ++ [data st a]).
Proof. reflexivity. Qed.

Lemma square_eq a st :
  square a st
  = Ok (mk_array (kind a) (dt a) (length st) (shape a),
        st ++ [(fun x => f_mul (dt a) x x) <$> data st a]).
Proof. reflexivity. Qed.

Lemma sqrt_eq a st :
  sqrt a st
  = Ok (mk_array (kind a) (dt a) (length st) (shape a),
        st ++ [f_sqrt (dt a) <$> data st a]).
Proof. reflexivity. Qed.

Lemma mean_keepdims_eq a axes st :
  forallb (fun k => k <? length (shape a))%nat axes = true ->
  mean_keepdims a axes st
  = Ok (mk_array (kind a) (dt a) (length st) (keepdims_shape axes (shape a)),
        st ++ [mean_data (dt a) axes (shape a) (data st a)]).
Proof. intros H. unfold mean_keepdims, check_axes. rewrite H. reflexivity. Qed.

Lemma sum_keepdims_eq a axes st :
  forallb (fun k => k <? length (shape a))%nat axes = true ->
  sum_keepdims a axes st
  = Ok (mk_array (kind a) (dt a) (length st) (keepdims_shape axes (shape a)),
        st ++ [sum_data (dt a) axes (shape a) (data st a)]).
Proof. intros H. unfold sum_keepdims, check_axes. rewrite H. reflexivity. Qed.

Lemma inplace_same_shape op x r st :
  broadcast_shapes (shape x) (shape r) = Some (shape x) ->
  dt r = dt x ->
  inplace op x r st
  = Ok (match kind x with
        | Numpy =>
            (x, <[base x :=
                    broadcast_op (op (dt x)) (shape x) (data st x)
                      (shape r) (data st r) (shape x)]> st)
        | Dask =>
            (mk_array Dask (dt x) (length st) (shape x),
             st ++ [broadcast_op (op (dt x)) (shape x) (data st x)
                      (shape r) (data st r) (shape x)])
        end).
Proof.
  intros Hb Hdt. unfold inplace. rewrite Hb, Hdt, result_type_same.
  cbv [mbind M_bind read write alloc mret M_ret].
  destruct (kind x).
  - rewrite decide_True by reflexivity. rewrite fmap_cast_same. reflexivity.
  - reflexivity.
Qed.

(* ===================================================================== *)
(** * Frames *)
(* ===================================================================== *)

Lemma preserves_refl keep st : preserves keep st st.
Proof. split; [lia | reflexivity]. Qed.

Lemma preserves_trans keep st1 st2 st3 :
  preserves keep st1 st2 -> preserves keep st2 st3 -> preserves keep st1 st3.
Proof.
  intros [Hl1 H1] [Hl2 H2]. split; [lia|].
  intros b Hb Hk. rewrite H2 by (assumption || lia). apply H1; assumption.
Qed.

Lemma preserves_weaken (keep keep' : nat -> Prop) st st' :
  (forall b, keep' b -> keep b) -> preserves keep st st' -> preserves keep' st st'.
Proof. intros Hk [Hl H]. split; [exact Hl|]. intros b Hb Hk'. apply H; auto. Qed.

Lemma preserves_alloc keep (st : store) xs : preserves keep st (st ++ [xs]).
Proof.
  split; [rewrite length_app; lia|].
  intros b Hb _. apply lookup_app_l. exact Hb.
Qed.

Lemma preserves_write (keep : nat -> Prop) (st : store) b xs :
  (forall b', keep b' -> b' <> b) -> preserves keep st (<[b := xs]> st).
Proof.
  intros Hk. split; [rewrite length_insert; lia|].
  intros b' _ Hb'. apply list_lookup_insert_ne. intros ->. exact (Hk _ Hb' eq_refl).
Qed.

Lemma data_alloc (st : store) xs k d sh :
  data (st ++ [xs]) (mk_array k d (length st) sh) = xs.
Proof.
  unfold data. cbn [base]. apply list_lookup_total_correct.
  rewrite lookup_app_r by lia. rewrite Nat.sub_diag. reflexivity.
Qed.

Lemma data_write (st : store) x xs :
  (base x < length st)%nat -> data (<[base x := xs]> st) x = xs.
Proof.
  intros Hb. unfold data. apply list_lookup_total_correct.
  apply list_lookup_insert_eq. exact Hb.
Qed.

Lemma data_app_l (st : store) xs x :
  (base x < length st)%nat -> data (st ++ [xs]) x = data st x.
Proof.
  intros Hb. unfold data. rewrite !list_lookup_total_alt.
  rewrite lookup_app_l by exact Hb. reflexivity.
Qed.

(* ===================================================================== *)
(** * The two update steps of the utilities *)
(* ===================================================================== *)

Lemma data_preserved (keep : nat -> Prop) st st' x :
  preserves keep st st' -> (base x < length st)%nat -> keep (base x) ->
  data st' x = data st x.
Proof.
  intros [_ H] Hb Hk. unfold data. rewrite !list_lookup_total_alt.
  rewrite H by assumption. reflexivity.
Qed.

(** An augmented assignment [x op= r] whose right-hand side [r] was
    reduced from [x] with [keepdims=True], run after some allocations. *)
Lemma inplace_step op x r axes st st1 :
  shape r = keepdims_shape axes (shape x) ->
  dt r = dt x ->
  preserves (fun _ => True) st st1 ->
  exists x' st',
    inplace op x r st1 = Ok (x', st') /\
    rebound st x x' /\
    preserves (not_buffer_of x) st st' /\
    ((base x < length st)%nat ->
     (base x' < length st')%nat /\
     data st' x'
     = broadcast_op (op (dt x)) (shape x) (data st x) (shape r) (data st1 r)
         (shape x)).
Proof.
  intros Hsh Hdt Hext.
  assert (Hb : broadcast_shapes (shape x) (shape r) = Some (shape x))
    by (rewrite Hsh; apply broadcast_keepdims).
  pose proof (inplace_same_shape op x r st1 Hb Hdt) as Hi.
  assert (Hlen : (length st <= length st1)%nat) by apply Hext.
  assert (Hdx : (base x < length st)%nat -> data st1 x = data st x)
    by (intros Hlt; apply (data_preserved _ _ _ _ Hext Hlt I)).
  destruct (kind x) eqn:Hk.
  - eexists _, _. split; [exact Hi|]. split; [|split].
    + repeat split; auto. intros; congruence.
    + apply preserves_trans with st1.
      * apply (preserves_weaken (fun _ => True)); [auto | exact Hext].
      * apply preserves_write. intros b' Hb'. apply Hb'. exact Hk.
    + intros Hlt. split.
      * rewrite length_insert. lia.
      * rewrite data_write by lia. rewrite Hdx by exact Hlt. reflexivity.
  - eexists _, _. split; [exact Hi|]. split; [|split].
    + unfold rebound. cbn [shape kind dt base]. rewrite Hk.
      repeat split; solve [congruence | intros _; exact Hlen].
    + apply preserves_trans with st1.
      * apply (preserves_weaken (fun _ => True)); [auto | exact Hext].
      * apply preserves_alloc.
    + intros Hlt. split.
      * cbn [base]. rewrite length_app. cbn [length]. lia.
      * rewrite data_alloc. rewrite Hdx by exact Hlt. reflexivity.
Qed.

(** [x -= x.mean(axis=axes, keepdims=True)] *)
Lemma zero_mean_step x axes st :
  forallb (fun k => k <? length (shape x))%nat axes = true ->
  exists x' st',
    (forall B (k : ndarray -> M B),
       (mean_keepdims x axes ≫= (fun m => isub x m ≫= k)) st = k x' st') /\
    rebound st x x' /\
    preserves (not_buffer_of x) st st' /\
    ((base x < length st)%nat ->
     (base x' < length st')%nat /\
     data st' x'
     = broadcast_op (f_sub (dt x)) (shape x) (data st x)
         (keepdims_shape axes (shape x))
         (mean_data (dt x) axes (shape x) (data st x)) (shape x)).
Proof.
  intros Hax.
  pose proof (mean_keepdims_eq x axes st Hax) as Hm.
  destruct (inplace_step f_sub x
              (mk_array (kind x) (dt x) (length st) (keepdims_shape axes (shape x)))
              axes st _ eq_refl eq_refl
              (preserves_alloc _ st (mean_data (dt x) axes (shape x) (data st x))))
    as (x' & st' & Hi & Hr & Hp & Hd).
  exists x', st'. split; [|split; [exact Hr | split; [exact Hp|]]].
  - intros B k. rewrite (bind_eq _ _ _ _ _ Hm). unfold isub.
    rewrite (bind_eq _ _ _ _ _ Hi). reflexivity.
  - intros Hlt. destruct (Hd Hlt) as [Hlt' Hd']. split; [exact Hlt'|].
    rewrite Hd'. rewrite data_alloc. reflexivity.
Qed.

(** [x /= (x ** 2).sum(axis=axes, keepdims=True) ** 0.5] *)
Lemma normalize_step x axes st :
  forallb (fun k => k <? length (shape x))%nat axes = true ->
  exists x' st',
    (forall B (k : ndarray -> M B),
       (square x ≫= (fun sq => sum_keepdims sq axes ≫= (fun s =>
          sqrt s ≫= (fun n => itruediv x n ≫= k)))) st = k x' st') /\
    rebound st x x' /\
    preserves (not_buffer_of x) st st' /\
    ((base x < length st)%nat ->
     (base x' < length st')%nat /\
     data st' x'
     = broadcast_op (f_div (dt x)) (shape x) (data st x)
         (keepdims_shape axes (shape x))
         (f_sqrt (dt x) <$>
            sum_data (dt x) axes (shape x)
              ((fun v => f_mul (dt x) v v) <$> data st x))
         (shape x)).
Proof.
  intros Hax.
  set (sqd := (fun v => f_mul (dt x) v v) <$> data st x).
  set (sq := mk_array (kind x) (dt x) (length st) (shape x)).
  set (st1 := st ++ [sqd]).
  set (sums := sum_data (dt x) axes (shape x) sqd).
  set (s := mk_array (kind x) (dt x) (length st1) (keepdims_shape axes (shape x))).
  set (st2 := st1 ++ [sums]).
  set (n := mk_array (kind x) (dt x) (length st2) (keepdims_shape axes (shape x))).
  set (st3 := st2 ++ [f_sqrt (dt x) <$> sums]).
  assert (H1 : square x st = Ok (sq, st1)) by apply square_eq.
  assert (H2 : sum_keepdims sq axes st1 = Ok (s, st2)).
  { rewrite sum_keepdims_eq by exact Hax. unfold s, st2, sums, sq, st1.
    cbn [kind dt shape]. rewrite data_alloc. reflexivity. }
  assert (H3 : sqrt s st2 = Ok (n, st3)).
  { rewrite sqrt_eq. unfold n, st3, s, st2.
    cbn [kind dt shape]. rewrite data_alloc. reflexivity. }
  assert (Hext : preserves (fun _ => True) st st3).
  { apply preserves_trans with st1; [apply preserves_alloc|].
    apply preserves_trans with st2; apply preserves_alloc. }
  destruct (inplace_step f_div x n axes st st3 eq_refl eq_refl Hext)
    as (x' & st' & Hi & Hr & Hp & Hd).
  exists x', st'. split; [|split; [exact Hr | split; [exact Hp|]]].
  - intros B k. rewrite (bind_eq _ _ _ _ _ H1), (bind_eq _ _ _ _ _ H2),
      (bind_eq _ _ _ _ _ H3). unfold itruediv.
    rewrite (bind_eq _ _ _ _ _ Hi). reflexivity.
  - intros Hlt. destruct (Hd Hlt) as [Hlt' Hd']. split; [exact Hlt'|].
    rewrite Hd'. unfold n at 2, st3. rewrite data_alloc. reflexivity.
Qed.

(* ===================================================================== *)
(** * What [_zero_mean] and [_normalize] return *)
(* ===================================================================== *)

Lemma length_newaxes a n :
  length (shape (getitem_newaxes a n)) = (Z.to_nat n + length (shape a))%nat.
Proof. cbn [getitem_newaxes shape]. rewrite length_app, length_replicate. reflexivity. Qed.

(** After promotion to many-to-many the reduced axes exist. *)
Lemma expanded_axes_ok (flat : bool) e s :
  forallb (fun k => k <? length (shape (fst (_expand_dims_to_many_to_many e s flat))))%nat
    (if flat then [1%nat] else [2%nat; 3%nat]) = true /\
  forallb (fun k => k <? length (shape (snd (_expand_dims_to_many_to_many e s flat))))%nat
    (if flat then [1%nat] else [1%nat; 2%nat]) = true.
Proof.
  destruct flat; cbn [_expand_dims_to_many_to_many _SCOPE_TO_EXPT_SIM_NDIM fst snd forallb];
    rewrite !length_newaxes; unfold ndim;
    rewrite ?andb_true_r, ?andb_true_iff, !Nat.ltb_lt; lia.
Qed.

(** The conclusion shared by the two utilities, from the facts about
    their two update steps. *)
Lemma two_steps_return e s flat st e1 st1 s1 st2 (sq : bool) :
  sq = no_singleton e s ->
  rebound st (fst (_expand_dims_to_many_to_many e s flat)) e1 ->
  preserves (not_buffer_of (fst (_expand_dims_to_many_to_many e s flat))) st st1 ->
  rebound st1 (snd (_expand_dims_to_many_to_many e s flat)) s1 ->
  preserves (not_buffer_of (snd (_expand_dims_to_many_to_many e s flat))) st1 st2 ->
  utility_returns e s flat st
    (if sq then squeeze e1 else e1) (if sq then squeeze s1 else s1) st2.
Proof.
  intros -> (Hsh1 & Hk1 & Hd1 & Hn1 & Hl1) Hp1 (Hsh2 & Hk2 & Hd2 & Hn2 & Hl2) Hp2.
  unfold utility_returns.
  destruct (_expand_dims_to_many_to_many e s flat) as [ex sx] eqn:Hex.
  assert (Hkx : kind ex = kind e /\ base ex = base e /\ dt ex = dt e /\
                kind sx = kind s /\ base sx = base s /\ dt sx = dt s).
  { unfold _expand_dims_to_many_to_many in Hex.
    destruct (_SCOPE_TO_EXPT_SIM_NDIM _ _) as [a b].
    injection Hex as <- <-. repeat split. }
  destruct Hkx as (Hke & Hbe & Hde & Hks & Hbs & Hds).
  cbn [fst snd] in *.
  assert (Hl : (length st <= length st1)%nat) by apply Hp1.
  repeat split.
  - destruct (no_singleton e s); cbn [squeeze shape]; rewrite Hsh1; reflexivity.
  - destruct (no_singleton e s); cbn [squeeze shape]; rewrite Hsh2; reflexivity.
  - destruct (no_singleton e s); cbn [squeeze kind]; congruence.
  - destruct (no_singleton e s); cbn [squeeze kind]; congruence.
  - destruct (no_singleton e s); cbn [squeeze dt]; congruence.
  - destruct (no_singleton e s); cbn [squeeze dt]; congruence.
  - intros Hn. rewrite <- Hke in Hn. specialize (Hn1 Hn).
    destruct (no_singleton e s); cbn [squeeze base]; congruence.
  - intros Hn. rewrite <- Hks in Hn. specialize (Hn2 Hn).
    destruct (no_singleton e s); cbn [squeeze base]; congruence.
  - intros Hn. rewrite <- Hke in Hn. specialize (Hl1 Hn).
    destruct (no_singleton e s); cbn [squeeze base]; exact Hl1.
  - intros Hn. rewrite <- Hks in Hn. specialize (Hl2 Hn).
    destruct (no_singleton e s); cbn [squeeze base]; lia.
  - destruct Hp1 as [? ?], Hp2 as [? ?]. lia.
  - intros b Hb [Hbe' Hbs']. destruct Hp1 as [Hl1' Hp1], Hp2 as [Hl2' Hp2].
    rewrite Hp2.
    + apply Hp1; [exact Hb|]. unfold not_buffer_of in *. rewrite Hke, Hbe. exact Hbe'.
    + lia.
    + unfold not_buffer_of in *. rewrite Hks, Hbs. exact Hbs'.
Qed.

Lemma zero_mean_returns e s flat st :
  exists e' s' st',
    _zero_mean e s flat st = Ok ((e', s'), st') /\
    utility_returns e s flat st e' s' st'.
Proof.
  destruct (expanded_axes_ok flat e s) as [Hax1 Hax2].
  pose proof (two_steps_return e s flat st) as Hret.
  unfold _zero_mean.
  destruct (_expand_dims_to_many_to_many e s flat) as [ex sx].
  cbn [fst snd] in *.
  destruct (zero_mean_step ex _ st Hax1) as (e1 & st1 & Heq1 & Hr1 & Hp1 & _).
  destruct (zero_mean_step sx _ st1 Hax2) as (s1 & st2 & Heq2 & Hr2 & Hp2 & _).
  exists (if no_singleton e s then squeeze e1 else e1),
    (if no_singleton e s then squeeze s1 else s1), st2.
  split.
  - destruct flat; rewrite Heq1, Heq2; destruct (no_singleton e s); reflexivity.
  - exact (Hret e1 st1 s1 st2 (no_singleton e s) eq_refl Hr1 Hp1 Hr2 Hp2).
Qed.

Lemma normalize_returns e s flat st :
  exists e' s' st',
    _normalize e s flat st = Ok ((e', s'), st') /\
    utility_returns e s flat st e' s' st'.
Proof.
  destruct (expanded_axes_ok flat e s) as [Hax1 Hax2].
  pose proof (two_steps_return e s flat st) as Hret.
  unfold _normalize.
  destruct (_expand_dims_to_many_to_many e s flat) as [ex sx].
  cbn [fst snd] in *.
  destruct (normalize_step ex _ st Hax1) as (e1 & st1 & Heq1 & Hr1 & Hp1 & _).
  destruct (normalize_step sx _ st1 Hax2) as (s1 & st2 & Heq2 & Hr2 & Hp2 & _).
  exists (if no_singleton e s then squeeze e1 else e1),
    (if no_singleton e s then squeeze s1 else s1), st2.
  split.
  - destruct flat; rewrite Heq1, Heq2; destruct (no_singleton e s); reflexivity.
  - exact (Hret e1 st1 s1 st2 (no_singleton e s) eq_refl Hr1 Hp1 Hr2 Hp2).
Qed.

(** At the many-to-many ranks, promotion adds no axis and the final
    squeeze (taken only when no input has an axis of length one) removes
    none. *)
Lemma many_to_many_shapes_kept e s (flat : bool) st e' s' st' :
  ndim e = fst (_SCOPE_TO_EXPT_SIM_NDIM
                  (if flat then FlatSimilarityMetric else SimilarityMetric)
                  MANY_TO_MANY) ->
  ndim s = snd (_SCOPE_TO_EXPT_SIM_NDIM
                  (if flat then FlatSimilarityMetric else SimilarityMetric)
                  MANY_TO_MANY) ->
  utility_returns e s flat st e' s' st' ->
  shape e' = shape e /\ shape s' = shape s.
Proof.
  intros He Hs. unfold utility_returns, _expand_dims_to_many_to_many.
  destruct (_SCOPE_TO_EXPT_SIM_NDIM _ _) as [a b]. cbn [fst snd] in He, Hs.
  intros (Hse & Hss & _).
  rewrite Hse, Hss. cbn [getitem_newaxes squeeze shape].
  rewrite <- He, <- Hs, !Z.sub_diag. cbn [Z.to_nat replicate app].
  unfold no_singleton. destruct (bool_decide _) eqn:Hd; cbn [negb].
  - split; reflexivity.
  - apply bool_decide_eq_false in Hd. rewrite elem_of_app in Hd.
    split; apply filter_no_singleton; tauto.
Qed.

(** C7.  For inputs that already have the many-to-many ranks of their
    representation (4 and 3 nested, 2 and 2 flattened), [_zero_mean] and
    [_normalize] return, and return arrays of the ranks (indeed of the
    shapes) of the inputs, whether or not some axis has length one. *)
Theorem promote_then_squeeze_keeps_many_to_many_ranks
    (flat : bool) (e s : ndarray) (st : store) :
  ndim e = fst (_SCOPE_TO_EXPT_SIM_NDIM
                  (if flat then FlatSimilarityMetric else SimilarityMetric)
                  MANY_TO_MANY) ->
  ndim s = snd (_SCOPE_TO_EXPT_SIM_NDIM
                  (if flat then FlatSimilarityMetric else SimilarityMetric)
                  MANY_TO_MANY) ->
  (exists e' s' st',
     _zero_mean e s flat st = Ok ((e', s'), st') /\
     ndim e' = ndim e /\ ndim s' = ndim s /\
     shape e' = shape e /\ shape s' = shape s) /\
  (exists e' s' st',
     _normalize e s flat st = Ok ((e', s'), st') /\
     ndim e' = ndim e /\ ndim s' = ndim s /\
     shape e' = shape e /\ shape s' = shape s).
Proof.
  intros He Hs. split.
  - destruct (zero_mean_returns e s flat st) as (e' & s' & st' & Heq & Hret).
    destruct (many_to_many_shapes_kept _ _ _ _ _ _ _ He Hs Hret) as [H1 H2].
    exists e', s', st'. unfold ndim. rewrite H1, H2. auto.
  - destruct (normalize_returns e s flat st) as (e' & s' & st' & Heq & Hret).
    destruct (many_to_many_shapes_kept _ _ _ _ _ _ _ He Hs Hret) as [H1 H2].
    exists e', s', st'. unfold ndim. rewrite H1, H2. auto.
Qed.

Lemma promote_then_squeeze_keeps_many_to_many_ranks_witness :
  exists e' s' st',
    _zero_mean (np32 0 [1; 2; 1; 2]%nat) (np32 1 [2; 1; 2]%nat) false example_store
    = Ok ((e', s'), st') /\
    ndim e' = 4 /\ ndim s' = 3.
Proof.
  destruct (promote_then_squeeze_keeps_many_to_many_ranks false
              (np32 0 [1; 2; 1; 2]%nat) (np32 1 [2; 1; 2]%nat) example_store
              eq_refl eq_refl) as [(e' & s' & st' & Heq & He & Hs & _) _].
  exists e', s', st'. split; [exact Heq|]. split; [exact He | exact Hs].
Defined.

(* ===================================================================== *)
(** * The call path *)
(* ===================================================================== *)

Lemma call_eq m e s st :
  __call__ m e s st
  = let '(e2, s2, st2) := cast_and_promoted m e s st in
    (_measure m e2 s2 ≫= (fun r => mret (squeeze r))) st2.
Proof.
  unfold __call__, cast_and_promoted.
  rewrite (bind_eq _ _ _ _ _ (astype_eq e (_dtype_out m) st)).
  rewrite (bind_eq _ _ _ _ _ (astype_eq s (_dtype_out m) _)).
  unfold rechunk.
  repeat match goal with
         | |- context [if isinstance_da ?x then ?y else ?y] =>
             replace (if isinstance_da x then y else y) with y
               by (destruct (isinstance_da x); reflexivity)
         end.
  destruct (_make_compatible_to_lower_scopes m); [|reflexivity].
  destruct (_expand_dims_to_match_scope m _ _); reflexivity.
Qed.

Lemma cast_and_promoted_facts m e s st e2 s2 st2 :
  cast_and_promoted m e s st = (e2, s2, st2) ->
  kind e2 = kind e /\ kind s2 = kind s /\
  dt e2 = _dtype_out m /\ dt s2 = _dtype_out m /\
  base e2 = length st /\ base s2 = S (length st) /\
  length st2 = S (S (length st)) /\
  preserves (fun _ => True) st st2.
Proof.
  unfold cast_and_promoted, _expand_dims_to_match_scope.
  destruct (_SCOPE_TO_EXPT_SIM_NDIM _ _) as [a b].
  destruct (_make_compatible_to_lower_scopes m); intros H; injection H as <- <- <-;
    cbn [getitem_newaxes kind dt base]; rewrite !length_app;
    cbn [length]; do 7 (split; [first [reflexivity | lia]|]);
    (eapply preserves_trans; apply preserves_alloc).
Qed.

Lemma einsum_Ok a b st z st' :
  einsum_ijkl_mkl_ijm a b st = Ok (z, st') ->
  kind z = Dask /\ base z = length st /\ preserves (fun _ => True) st st'.
Proof.
  unfold einsum_ijkl_mkl_ijm.
  repeat case_match; try discriminate.
  cbv [mbind M_bind read alloc]. intros Hz. injection Hz as <- <-.
  repeat split; [rewrite length_app; lia|].
  intros b' Hb' _. apply lookup_app_l. exact Hb'.
Qed.

Lemma kinds_cases (e s r : ndarray) :
  kind r = (if isinstance_ndarray e && isinstance_ndarray s then Numpy else Dask) ->
  materialised_iff_in_memory e s r.
Proof.
  unfold isinstance_ndarray, materialised_iff_in_memory.
  destruct (kind e), (kind s); cbn; intros ->;
    repeat split; intros; try discriminate; auto;
    repeat match goal with H : _ /\ _ |- _ => destruct H
                      | H : _ \/ _ |- _ => destruct H end; discriminate.
Qed.

(** The tail shared by the two metric functions: the contraction, then
    [compute] when both operands are in memory. *)
Lemma contraction_kind (e s : ndarray) st r st' :
  (einsum_ijkl_mkl_ijm e s ≫= (fun z =>
     if isinstance_ndarray e && isinstance_ndarray s then compute z else mret z)) st
  = Ok (r, st') ->
  kind r = (if isinstance_ndarray e && isinstance_ndarray s then Numpy else Dask).
Proof.
  intros H. apply bind_Ok_inv in H as (z & st1 & Hz & H).
  apply einsum_Ok in Hz as (Hk & _).
  destruct (isinstance_ndarray e && isinstance_ndarray s).
  - rewrite compute_eq in H. injection H as <- <-. reflexivity.
  - injection H as <- <-. exact Hk.
Qed.

Lemma isinstance_ndarray_kind (a b : ndarray) :
  kind a = kind b -> isinstance_ndarray a = isinstance_ndarray b.
Proof. unfold isinstance_ndarray. intros ->. reflexivity. Qed.

Lemma zncc_kind e s st r st' :
  _zncc_einsum e s st = Ok (r, st') -> materialised_iff_in_memory e s r.
Proof.
  unfold _zncc_einsum. intros H.
  destruct (zero_mean_returns e s false st) as (e1 & s1 & st1 & Heq1 & Hr1).
  rewrite (bind_eq _ _ _ _ _ Heq1) in H.
  destruct (normalize_returns e1 s1 false st1) as (e2 & s2 & st2 & Heq2 & Hr2).
  rewrite (bind_eq _ _ _ _ _ Heq2) in H.
  apply contraction_kind in H.
  apply kinds_cases. rewrite H.
  unfold utility_returns in Hr1, Hr2.
  destruct (_expand_dims_to_many_to_many e s false), (_expand_dims_to_many_to_many e1 s1 false).
  destruct Hr1 as (_ & _ & Hke1 & Hks1 & _), Hr2 as (_ & _ & Hke2 & Hks2 & _).
  rewrite (isinstance_ndarray_kind e2 e), (isinstance_ndarray_kind s2 s) by congruence.
  reflexivity.
Qed.

Lemma ndp_kind e s st r st' :
  _ndp_einsum e s st = Ok (r, st') -> materialised_iff_in_memory e s r.
Proof.
  unfold _ndp_einsum. intros H.
  destruct (normalize_returns e s false st) as (e2 & s2 & st2 & Heq2 & Hr2).
  rewrite (bind_eq _ _ _ _ _ Heq2) in H.
  apply contraction_kind in H.
  apply kinds_cases. rewrite H.
  unfold utility_returns in Hr2.
  destruct (_expand_dims_to_many_to_many e s false).
  destruct Hr2 as (_ & _ & Hke2 & Hks2 & _).
  rewrite (isinstance_ndarray_kind e2 e), (isinstance_ndarray_kind s2 s) by congruence.
  reflexivity.
Qed.

Lemma materialised_iff_in_memory_kinds e s r e' s' r' :
  kind e' = kind e -> kind s' = kind s -> kind r' = kind r ->
  materialised_iff_in_memory e s r -> materialised_iff_in_memory e' s' r'.
Proof. unfold materialised_iff_in_memory. intros -> -> ->. auto. Qed.

(** C9.  For the two registered metrics, zncc and ndp, the result of the
    metric function, and of a call of the metric, is an in-memory
    (materialised) array exactly when both inputs are in-memory arrays;
    as soon as one input is lazy, the result is a lazy array. *)
Theorem result_materialised_iff_both_inputs_in_memory
    (m : Metric) (e s : ndarray) (st : store) :
  m = zncc_metric \/ m = ndp_metric ->
  (forall r st', _metric_func m e s st = Ok (r, st') ->
                 materialised_iff_in_memory e s r) /\
  (forall r st', __call__ m e s st = Ok (r, st') ->
                 materialised_iff_in_memory e s r).
Proof.
  intros Hm.
  assert (Hf : forall a b st0 r st',
             _metric_func m a b st0 = Ok (r, st') -> materialised_iff_in_memory a b r).
  { destruct Hm as [-> | ->]; cbn [_metric_func zncc_metric ndp_metric make_similarity_metric].
    - apply zncc_kind.
    - apply ndp_kind. }
  split; [apply Hf|].
  intros r st'. rewrite call_eq.
  destruct (cast_and_promoted m e s st) as [[e2 s2] st2] eqn:Hcp.
  apply cast_and_promoted_facts in Hcp as (Hke & Hks & _).
  intros H. apply bind_Ok_inv in H as (r0 & st3 & Hr0 & H).
  injection H as <- <-.
  assert (Hnested : _measure m e2 s2 st2 = _metric_func m e2 s2 st2)
    by (destruct Hm as [-> | ->]; reflexivity).
  rewrite Hnested in Hr0. apply Hf in Hr0.
  apply (materialised_iff_in_memory_kinds e2 s2 r0); auto.
Qed.

Lemma result_materialised_iff_both_inputs_in_memory_witness :
  (exists r st',
     __call__ zncc_metric (np32 0 [2; 2]%nat) (np32 1 [2; 2]%nat) example_store
     = Ok (r, st') /\ kind r = Numpy) /\
  (exists r st',
     __call__ ndp_metric (da32 0 [2; 2]%nat) (np32 1 [2; 2]%nat) example_store
     = Ok (r, st') /\ kind r = Dask).
Proof.
  split.
  - pose proof (proj2 (result_materialised_iff_both_inputs_in_memory zncc_metric
                         (np32 0 [2; 2]%nat) (np32 1 [2; 2]%nat) example_store
                         (or_introl eq_refl))) as H.
    destruct (__call__ zncc_metric (np32 0 [2; 2]%nat) (np32 1 [2; 2]%nat) example_store)
      as [[r st']|err] eqn:Hc; [|vm_compute in Hc; discriminate].
    exists r, st'. split; [reflexivity|].
    apply (proj2 (proj1 (H r st' eq_refl))). split; reflexivity.
  - pose proof (proj2 (result_materialised_iff_both_inputs_in_memory ndp_metric
                         (da32 0 [2; 2]%nat) (np32 1 [2; 2]%nat) example_store
                         (or_intror eq_refl))) as H.
    destruct (__call__ ndp_metric (da32 0 [2; 2]%nat) (np32 1 [2; 2]%nat) example_store)
      as [[r st']|err] eqn:Hc; [|vm_compute in Hc; discriminate].
    exists r, st'. split; [reflexivity|].
    apply (proj2 (proj2 (H r st' eq_refl))). left. reflexivity.
Defined.

(* ===================================================================== *)
(** * Effects of the utilities on the caller's arrays *)
(* ===================================================================== *)

Lemma utility_returns_writes e s flat st e' s' st' :
  utility_returns e s flat st e' s' st' ->
  writes_only_in_memory_inputs e s st e' s' st'.
Proof.
  unfold utility_returns, writes_only_in_memory_inputs.
  destruct (_expand_dims_to_many_to_many e s flat) as [ex sx].
  intros (_ & _ & _ & _ & _ & _ & Hbe & Hbs & _ & _ & Hp).
  split; [exact Hp|]. split; [|split; [|split]].
  - intros Hk. split; [auto|]. unfold data. rewrite (Hbe Hk). reflexivity.
  - intros Hk. split; [auto|]. unfold data. rewrite (Hbs Hk). reflexivity.
  - intros Hk Hlt Hns. apply (data_preserved _ _ _ _ Hp Hlt).
    split; [|exact Hns]. unfold not_buffer_of. congruence.
  - intros Hk Hlt Hne. apply (data_preserved _ _ _ _ Hp Hlt).
    split; [exact Hne|]. unfold not_buffer_of. congruence.
Qed.

Lemma metric_func_writes (f : compare_fn) e s st r st' :
  f = _zncc_einsum \/ f = _ndp_einsum ->
  f e s st = Ok (r, st') ->
  preserves (fun b => not_buffer_of e b /\ not_buffer_of s b) st st'.
Proof.
  intros Hf H.
  assert (Htail : forall e2 s2 st2,
             utility_returns e s false st e2 s2 st2 \/
             (exists e1 s1 st1,
                utility_returns e s false st e1 s1 st1 /\
                utility_returns e1 s1 false st1 e2 s2 st2) ->
             (einsum_ijkl_mkl_ijm e2 s2 ≫= (fun z =>
                if isinstance_ndarray e2 && isinstance_ndarray s2
                then compute z else mret z)) st2 = Ok (r, st') ->
             preserves (fun b => not_buffer_of e b /\ not_buffer_of s b) st st').
  { intros e2 s2 st2 Hret Hz.
    assert (Hp : preserves (fun b => not_buffer_of e b /\ not_buffer_of s b) st st2).
    { destruct Hret as [Hr | (e1 & s1 & st1 & Hr1 & Hr2)].
      - unfold utility_returns in Hr.
        destruct (_expand_dims_to_many_to_many e s false). apply Hr.
      - unfold utility_returns in Hr1, Hr2.
        destruct (_expand_dims_to_many_to_many e s false),
          (_expand_dims_to_many_to_many e1 s1 false).
        destruct Hr1 as (_ & _ & Hke & Hks & _ & _ & Hbe & Hbs & _ & _ & Hp1).
        destruct Hr2 as (_ & _ & _ & _ & _ & _ & _ & _ & _ & _ & Hp2).
        apply preserves_trans with st1; [exact Hp1|].
        apply (preserves_weaken
                 (fun b => not_buffer_of e1 b /\ not_buffer_of s1 b)); [|exact Hp2].
        unfold not_buffer_of. intros b [Hb1 Hb2]. split.
        + intros Hk. rewrite Hke in Hk. rewrite (Hbe Hk). exact (Hb1 Hk).
        + intros Hk. rewrite Hks in Hk. rewrite (Hbs Hk). exact (Hb2 Hk). }
    apply bind_Ok_inv in Hz as (z & st3 & Hz & Hc).
    apply einsum_Ok in Hz as (_ & _ & Hp3).
    apply preserves_trans with st2; [exact Hp|].
    apply (preserves_weaken (fun _ => True)); [auto|].
    apply preserves_trans with st3; [exact Hp3|].
    destruct (isinstance_ndarray e2 && isinstance_ndarray s2).
    - rewrite compute_eq in Hc. injection Hc as _ <-. apply preserves_alloc.
    - injection Hc as _ <-. apply preserves_refl. }
  destruct Hf as [-> | ->].
  - unfold _zncc_einsum in H.
    destruct (zero_mean_returns e s false st) as (e1 & s1 & st1 & Heq1 & Hr1).
    rewrite (bind_eq _ _ _ _ _ Heq1) in H.
    destruct (normalize_returns e1 s1 false st1) as (e2 & s2 & st2 & Heq2 & Hr2).
    rewrite (bind_eq _ _ _ _ _ Heq2) in H.
    apply (Htail e2 s2 st2); [|exact H]. right. eauto.
  - unfold _ndp_einsum in H.
    destruct (normalize_returns e s false st) as (e2 & s2 & st2 & Heq2 & Hr2).
    rewrite (bind_eq _ _ _ _ _ Heq2) in H.
    apply (Htail e2 s2 st2); [|exact H]. left. exact Hr2.
Qed.

(** C2, counterexample.  After [_zero_mean] on two in-memory 2x2 patterns
    the caller's experimental array [[1, 2], [3, 4]] holds
    [[-1.5, -0.5], [0.5, 1.5]], and the simulated array is overwritten
    likewise; [_normalize] overwrites its inputs in the same way. *)
Lemma zero_mean_overwrites_in_memory_inputs :
  let e := np32 0 [2; 2]%nat in
  let s := np32 1 [2; 2]%nat in
  data example_store e = f32 <$> [1; 2; 3; 4] /\
  (exists e' s' st',
     _zero_mean e s false example_store = Ok ((e', s'), st') /\
     data st' e = f32_half <$> [-3; -1; 1; 3] /\
     data st' e <> data example_store e /\
     data st' s <> data example_store s) /\
  (exists e' s' st',
     _normalize e s false example_store = Ok ((e', s'), st') /\
     data st' e <> data example_store e /\
     data st' s <> data example_store s).
Proof.
  cbv zeta. split; [reflexivity|]. split.
  - eexists _, _, _. split; [vm_compute; reflexivity|].
    split; [vm_compute; reflexivity|]. split; vm_compute; discriminate.
  - eexists _, _, _. split; [vm_compute; reflexivity|].
    split; vm_compute; discriminate.
Qed.

(* ===================================================================== *)
(** * Errors of the call path *)
(* ===================================================================== *)

Lemma dims_of_numbers_exn k l err :
  dims_of_numbers k l = Raise err -> err = TypeError \/ err = IndexError.
Proof.
  induction l as [|x l IH]; cbn [dims_of_numbers]; [discriminate|].
  destruct (dim_of_number k x) as [z|err'] eqn:Hx.
  - destruct (dims_of_numbers k l); [discriminate|].
    intros H. injection H as <-. apply IH. reflexivity.
  - intros H. injection H as <-. unfold dim_of_number in Hx.
    repeat case_match; try discriminate; injection Hx as <-; auto.
Qed.

Lemma resolve_shape_exn k n dims err :
  resolve_shape k n dims = Raise err ->
  err = ValueError \/ err = ZeroDivisionError \/ err = IndexError.
Proof.
  unfold resolve_shape. repeat case_match; try discriminate;
    intros Hr; injection Hr as <-; auto.
Qed.

Lemma reshape_exn a dims st err :
  reshape a dims st = Raise err -> err <> IncompatibleShapeError.
Proof.
  unfold reshape.
  destruct (dims_of_numbers (kind a) dims) as [zs|err1] eqn:H1.
  - destruct (resolve_shape _ _ zs) as [sh|err2] eqn:H2; [discriminate|].
    intros H. injection H as <-.
    apply resolve_shape_exn in H2 as [-> | [-> | ->]]; discriminate.
  - intros H. injection H as <-.
    apply dims_of_numbers_exn in H1 as [-> | ->]; discriminate.
Qed.

Lemma get_nav_shape_exn a err :
  _get_nav_shape a = Raise err -> err <> IncompatibleShapeError.
Proof.
  unfold _get_nav_shape. repeat case_match; try discriminate;
    intros Hr; injection Hr as <-; discriminate.
Qed.

Lemma measure_raises m e s st err :
  _measure m e s st = Raise err ->
  err <> IncompatibleShapeError \/
  exists a b st0, _metric_func m a b st0 = Raise err.
Proof.
  unfold _measure. destruct (metric_cls m).
  - intros H. right. eauto.
  - destruct (_get_nav_shape e) as [nav|err1] eqn:Hn.
    + intros H. apply bind_Raise_inv in H as [H | (e' & st1 & _ & H)].
      * left. exact (reshape_exn _ _ _ _ H).
      * apply bind_Raise_inv in H as [H | (s' & st2 & _ & H)].
        -- left. exact (reshape_exn _ _ _ _ H).
        -- right. eauto.
    + intros H. injection H as <-. left. exact (get_nav_shape_exn _ _ Hn).
Qed.

Lemma call_nested_total m e s st :
  metric_cls m = SimilarityMetric ->
  (forall a b st0, exists r st1, _metric_func m a b st0 = Ok (r, st1)) ->
  exists r st', __call__ m e s st = Ok (r, st').
Proof.
  intros Hcls Hf. rewrite call_eq.
  destruct (cast_and_promoted m e s st) as [[e2 s2] st2].
  unfold _measure. rewrite Hcls.
  destruct (Hf e2 s2 st2) as (r & st1 & Hr).
  rewrite (bind_eq _ _ _ _ _ Hr). eexists _, _. reflexivity.
Qed.

(** C4 (as amended).  [__call__] does not consult [_is_compatible] and
    raises no [IncompatibleShapeError] of its own: whatever the ranks of
    the inputs, a call raises it only if the compare function does, and a
    call of a nested metric whose compare function always returns,
    returns. *)
Theorem call_raises_no_incompatible_shape_error
    (m : Metric) (e s : ndarray) (st : store) :
  (forall a b st0, _metric_func m a b st0 <> Raise IncompatibleShapeError) ->
  __call__ m e s st <> Raise IncompatibleShapeError /\
  (metric_cls m = SimilarityMetric ->
   (forall a b st0, exists r st1, _metric_func m a b st0 = Ok (r, st1)) ->
   exists r st', __call__ m e s st = Ok (r, st')).
Proof.
  intros Hf. split; [|apply call_nested_total].
  rewrite call_eq. destruct (cast_and_promoted m e s st) as [[e2 s2] st2].
  intros H. apply bind_Raise_inv in H as [H | (r & st1 & _ & H)]; [|discriminate].
  apply measure_raises in H as [H | (a & b & st0 & H)].
  - apply H. reflexivity.
  - exact (Hf _ _ _ H).
Qed.

Lemma call_raises_no_incompatible_shape_error_witness :
  let m := make_similarity_metric first_argument true ONE_TO_ONE false false float32 in
  _is_compatible m 3 1 = false /\
  __call__ m (np32 0 [1; 2; 2]%nat) (np32 1 [4]%nat) example_store
  <> Raise IncompatibleShapeError.
Proof.
  cbv zeta. split; [reflexivity|].
  apply (call_raises_no_incompatible_shape_error
           (make_similarity_metric first_argument true ONE_TO_ONE false false float32)).
  intros a b st0. unfold make_similarity_metric, first_argument. cbn. discriminate.
Defined.

(** C4, counterexample.  The registered zncc metric (many-to-many, with
    promotion) is called with an experimental array of rank 3 and a
    simulated array of rank 3; the rank pair (3, 3) is in no rank-pair
    table and [_is_compatible] rejects it, yet the call returns a result
    and raises nothing. *)
Lemma incompatible_ranks_raise_nothing :
  let e := np32 0 [1; 2; 2]%nat in
  let s := np32 1 [1; 2; 2]%nat in
  ndim e = 3 /\ ndim s = 3 /\
  _EXPT_SIM_NDIM_TO_SCOPE SimilarityMetric !! (3, 3) = None /\
  _is_compatible zncc_metric (ndim e) (ndim s) = false /\
  exists r st', __call__ zncc_metric e s example_store = Ok (r, st').
Proof.
  cbv zeta. repeat split; try reflexivity.
  eexists _, _. vm_compute. reflexivity.
Qed.

(* ===================================================================== *)
(** * Promotion of two single patterns *)
(* ===================================================================== *)

Lemma bind_squeeze (c : M ndarray) st :
  (c ≫= (fun r => mret (squeeze r))) st = squeezed (c st).
Proof.
  unfold mbind, M_bind, squeezed. destruct (c st) as [[r st']|err]; reflexivity.
Qed.

Lemma call_nested_eq m e s st :
  metric_cls m = SimilarityMetric ->
  __call__ m e s st
  = let '(e2, s2, st2) := cast_and_promoted m e s st in
    squeezed (_metric_func m e2 s2 st2).
Proof.
  intros Hcls. rewrite call_eq.
  destruct (cast_and_promoted m e s st) as [[e2 s2] st2].
  rewrite bind_squeeze. unfold _measure. rewrite Hcls. reflexivity.
Qed.

Lemma ndim_2 (a : ndarray) : ndim a = 2 -> length (shape a) = 2%nat.
Proof. unfold ndim. lia. Qed.

(** C3 (as amended).  For two rank-2 patterns, a many-to-many metric with
    promotion returns what a one-to-one metric built from the same compare
    function (and dtype) returns on the explicitly promoted patterns
    [e[None, None]] and [s[None]]; it returns what the one-to-one metric
    returns on the two patterns themselves when the squeezed result of the
    compare function is unchanged by prepending singleton axes. *)
Theorem promoted_many_to_many_agrees_with_one_to_one
    (f : compare_fn) (greater_is_better greater_is_better' promote : bool)
    (dtype_out : dtype) (e s : ndarray) (st : store) :
  ndim e = 2 ->
  ndim s = 2 ->
  let many := make_similarity_metric f greater_is_better MANY_TO_MANY false true
                dtype_out in
  let one := make_similarity_metric f greater_is_better' ONE_TO_ONE false promote
               dtype_out in
  __call__ many e s st
  = __call__ one (getitem_newaxes e 2) (getitem_newaxes s 1) st /\
  (promotion_invariant f -> __call__ many e s st = __call__ one e s st).
Proof.
  intros He Hs many one.
  pose proof (ndim_2 _ He) as Hle. pose proof (ndim_2 _ Hs) as Hls.
  rewrite !call_nested_eq by reflexivity.
  unfold cast_and_promoted, _expand_dims_to_match_scope, many, one,
    make_similarity_metric.
  cbn [_make_compatible_to_lower_scopes _dtype_out metric_cls scope _metric_func
       _SCOPE_TO_EXPT_SIM_NDIM getitem_newaxes kind dt base shape data].
  unfold ndim. cbn [shape length]. rewrite ?length_app, ?length_replicate, Hle, Hls.
  cbn [Z.to_nat Z.of_nat Z.sub Z.add Pos.to_nat Pos.iter_op Pos.of_succ_nat
       Pos.succ Z.pos_sub Pos.pred_double Z.opp Nat.add replicate app
       Z.succ_double Z.pred_double Z.double].
  split.
  - destruct promote; reflexivity.
  - intros Hinv.
    destruct promote;
      refine (Hinv (mk_array (kind e) dtype_out (length st) (shape e))
                (mk_array (kind s) dtype_out _ (shape s)) _ _ _);
      unfold ndim; cbn [shape]; lia.
Qed.

Lemma flat_dot_promotion_invariant : promotion_invariant flat_dot.
Proof. intros a b st _ _. reflexivity. Qed.

Lemma promoted_many_to_many_agrees_with_one_to_one_witness :
  __call__ (make_similarity_metric flat_dot true MANY_TO_MANY false true float32)
    (np32 0 [2; 2]%nat) (np32 1 [2; 2]%nat) example_store
  = __call__ (make_similarity_metric flat_dot true ONE_TO_ONE false false float32)
      (np32 0 [2; 2]%nat) (np32 1 [2; 2]%nat) example_store.
Proof.
  apply (proj2 (promoted_many_to_many_agrees_with_one_to_one flat_dot true true
                  false float32 (np32 0 [2; 2]%nat) (np32 1 [2; 2]%nat)
                  example_store eq_refl eq_refl)).
  exact flat_dot_promotion_invariant.
Defined.

(** C3, counterexample.  With the zncc metric function itself as compare
    function and two in-memory 2x2 patterns, the many-to-many metric with
    promotion returns a result, while the one-to-one metric raises
    [ValueError], with or without promotion: the patterns reach the
    contraction "ijkl,mkl->ijm" with rank 2. *)
Lemma one_to_one_zncc_raises_where_promoted_returns :
  let e := np32 0 [2; 2]%nat in
  let s := np32 1 [2; 2]%nat in
  (exists r st',
     __call__ (make_similarity_metric _zncc_einsum true MANY_TO_MANY false true float32)
       e s example_store = Ok (r, st')) /\
  __call__ (make_similarity_metric _zncc_einsum true ONE_TO_ONE false false float32)
    e s example_store = Raise ValueError /\
  __call__ (make_similarity_metric _zncc_einsum true ONE_TO_ONE false true float32)
    e s example_store = Raise ValueError.
Proof.
  cbv zeta. split; [|split].
  - eexists _, _. vm_compute. reflexivity.
  - vm_compute. reflexivity.
  - vm_compute. reflexivity.
Qed.

(* ===================================================================== *)
(** * The measurement step *)
(* ===================================================================== *)

Lemma no_dim_below_minus_one (l : list nat) (extra : list Z) :
  Forall (fun z => -1 <= z) extra ->
  ~ Exists (fun z => z < -1) (extra ++ (Z.of_nat <$> l)).
Proof.
  intros Hextra Hex. apply Exists_exists in Hex as (z & Hin & Hz).
  apply elem_of_app in Hin as [Hin | Hin].
  - rewrite Forall_forall in Hextra. specialize (Hextra _ Hin). lia.
  - apply list_elem_of_fmap in Hin as (n & -> & _). lia.
Qed.

(** A shape of two known dimensions. *)
Lemma resolve_shape_known k n p q :
  (p * q = n)%nat ->
  resolve_shape k n [Z.of_nat p; Z.of_nat q] = Ok [p; q].
Proof.
  intros Hn. unfold resolve_shape.
  rewrite bool_decide_eq_false_2
    by (apply (no_dim_below_minus_one [p; q] []); constructor).
  rewrite !filter_cons_True by lia. rewrite filter_nil.
  cbn [length Nat.sub fold_right].
  replace (Z.of_nat p * (Z.of_nat q * 1) =? Z.of_nat n) with true
    by (symmetry; apply Z.eqb_eq; lia).
  cbn [fmap list_fmap]. rewrite !Nat2Z.id. reflexivity.
Qed.

(** A shape whose first dimension is inferred. *)
Lemma resolve_shape_infer k n q :
  resolve_shape k n [-1; Z.of_nat q]
  = if (q =? 0)%nat
    then Raise (match k with Numpy => ValueError | Dask => ZeroDivisionError end)
    else if (n mod q =? 0)%nat then Ok [(n / q)%nat; q]
    else Raise (match k with Numpy => ValueError | Dask => IndexError end).
Proof.
  unfold resolve_shape.
  rewrite bool_decide_eq_false_2
    by (apply (no_dim_below_minus_one [q] [-1]); repeat constructor; lia).
  rewrite filter_cons_False by (intros H; apply H; reflexivity).
  rewrite filter_cons_True by lia. rewrite filter_nil.
  cbn [length Nat.sub fold_right].
  destruct (Nat.eqb_spec q 0) as [->|Hq]; [reflexivity|].
  replace (Z.of_nat q * 1 =? 0) with false by (symmetry; apply Z.eqb_neq; lia).
  rewrite Z.mul_1_r, <- Nat2Z.inj_mod.
  destruct (Nat.eqb_spec (n mod q) 0) as [Hm|Hm].
  - replace (Z.of_nat (n mod q) =? 0) with true by (symmetry; apply Z.eqb_eq; lia).
    cbn [fmap list_fmap]. rewrite decide_True by reflexivity.
    rewrite decide_False by lia.
    rewrite <- Nat2Z.inj_div, !Nat2Z.id. reflexivity.
  - replace (Z.of_nat (n mod q) =? 0) with false by (symmetry; apply Z.eqb_neq; lia).
    reflexivity.
Qed.

Lemma float_to_int_one : float_to_int (f_one float64) = Some 1.
Proof. vm_compute. reflexivity. Qed.

(** The reshape of the experimental array in
    [FlatSimilarityMetric._measure]: for rank 2 the navigation size is the
    float [np.prod(())], which NumPy's [reshape] refuses. *)
Lemma flat_reshape_experimental e nav st :
  _get_nav_shape e = Ok nav ->
  reshape e [np_prod nav; np_prod (_get_sig_shape e)] st
  = if bool_decide (length (shape e) = 2%nat /\ kind e = Numpy)
    then Raise TypeError
    else Ok (as_matrix e (nav_size e) (sig_size e), st).
Proof.
  unfold _get_nav_shape, reshape, as_matrix, nav_size, sig_size, _get_sig_shape.
  destruct (shape e) as [|a [|b [|c [|d [|x l]]]]] eqn:Hsh;
    cbn [length Nat.sub take drop]; try discriminate;
    intros H; injection H as <-.
  - (* rank 2 *)
    cbn [np_prod dims_of_numbers dim_of_number].
    destruct (kind e) eqn:Hk.
    + rewrite bool_decide_eq_true_2 by auto. reflexivity.
    + rewrite bool_decide_eq_false_2 by (intros [_ ?]; discriminate).
      rewrite float_to_int_one.
      change 1 with (Z.of_nat 1).
      rewrite resolve_shape_known by (cbn [shape_size foldr]; lia).
      reflexivity.
  - (* rank 3 *)
    rewrite bool_decide_eq_false_2 by (intros [? _]; discriminate).
    cbn [np_prod dims_of_numbers dim_of_number].
    rewrite resolve_shape_known by (cbn [shape_size foldr]; lia).
    reflexivity.
  - (* rank 4 *)
    rewrite bool_decide_eq_false_2 by (intros [? _]; discriminate).
    cbn [np_prod dims_of_numbers dim_of_number].
    rewrite resolve_shape_known by (cbn [shape_size foldr]; lia).
    reflexivity.
Qed.

Lemma sig_shape_nonempty e nav :
  _get_nav_shape e = Ok nav ->
  np_prod (_get_sig_shape e) = NpInt (Z.of_nat (sig_size e)).
Proof.
  unfold _get_nav_shape, sig_size, _get_sig_shape.
  destruct (shape e) as [|a [|b [|c [|d [|x l]]]]];
    cbn [length Nat.sub drop]; try discriminate; reflexivity.
Qed.

Lemma flat_reshape_simulated s q st :
  reshape s [NpInt (-1); NpInt (Z.of_nat q)] st
  = if (q =? 0)%nat
    then Raise (match kind s with Numpy => ValueError | Dask => ZeroDivisionError end)
    else if (shape_size (shape s) mod q =? 0)%nat
    then Ok (as_matrix s (shape_size (shape s) / q) q, st)
    else Raise (match kind s with Numpy => ValueError | Dask => IndexError end).
Proof.
  unfold reshape. cbn [dims_of_numbers dim_of_number].
  rewrite resolve_shape_infer.
  destruct (q =? 0)%nat; [reflexivity|].
  destruct (shape_size (shape s) mod q =? 0)%nat; reflexivity.
Qed.

Lemma measure_flat_eq m e s st nav :
  metric_cls m = FlatSimilarityMetric ->
  _get_nav_shape e = Ok nav ->
  _measure m e s st
  = if bool_decide (length (shape e) = 2%nat /\ kind e = Numpy)
    then Raise TypeError
    else if (sig_size e =? 0)%nat
    then Raise (match kind s with Numpy => ValueError | Dask => ZeroDivisionError end)
    else if (shape_size (shape s) mod sig_size e =? 0)%nat
    then _metric_func m (as_matrix e (nav_size e) (sig_size e))
           (as_matrix s (shape_size (shape s) / sig_size e) (sig_size e)) st
    else Raise (match kind s with Numpy => ValueError | Dask => IndexError end).
Proof.
  intros Hcls Hnav. unfold _measure. rewrite Hcls, Hnav.
  unfold mbind, M_bind.
  rewrite (flat_reshape_experimental e nav st Hnav).
  destruct (bool_decide _); [reflexivity|].
  rewrite (sig_shape_nonempty e nav Hnav), flat_reshape_simulated.
  destruct (sig_size e =? 0)%nat; [reflexivity|].
  destruct (shape_size (shape s) mod sig_size e =? 0)%nat; reflexivity.
Qed.




Lemma flat_measure_rank_2 m e s st :
  metric_cls m = FlatSimilarityMetric ->
  length (shape e) = 2%nat ->
  _get_nav_shape e = Ok [] /\
  _measure m e s st
  = match kind e with
    | Numpy => Raise TypeError
    | Dask =>
        if (sig_size e =? 0)%nat then Raise
          (match kind s with Numpy => ValueError | Dask => ZeroDivisionError end)
        else if (shape_size (shape s) mod sig_size e =? 0)%nat
        then _metric_func m (as_matrix e 1 (sig_size e))
               (as_matrix s (shape_size (shape s) / sig_size e) (sig_size e)) st
        else Raise (match kind s with Numpy => ValueError | Dask => IndexError end)
    end.
Proof.
  intros Hcls Hlen.
  assert (Hnav : _get_nav_shape e = Ok []).
  { unfold _get_nav_shape. destruct (shape e) as [|a [|b [|c l]]];
      try discriminate. reflexivity. }
  split; [exact Hnav|].
  rewrite (measure_flat_eq m e s st [] Hcls Hnav).
  assert (Hns : nav_size e = 1%nat).
  { unfold nav_size. rewrite Hlen. reflexivity. }
  rewrite Hns.
  destruct (kind e).
  - rewrite bool_decide_eq_true_2 by auto. reflexivity.
  - rewrite bool_decide_eq_false_2 by (intros [_ ?]; discriminate). reflexivity.
Qed.

Lemma cast_and_promoted_flat_rank_2 m e s st :
  metric_cls m = FlatSimilarityMetric ->
  ndim e = 2 ->
  _make_compatible_to_lower_scopes m = false \/ scope m <> MANY_TO_ONE ->
  exists e2 s2 st2,
    cast_and_promoted m e s st = (e2, s2, st2) /\
    kind e2 = kind e /\ shape e2 = shape e.
Proof.
  intros Hcls Hrank Hsc. unfold cast_and_promoted, _expand_dims_to_match_scope.
  destruct (_make_compatible_to_lower_scopes m).
  - rewrite Hcls. destruct Hsc as [Hsc | Hsc]; [discriminate|].
    destruct (scope m); try contradiction;
      cbn [_SCOPE_TO_EXPT_SIM_NDIM getitem_newaxes]; unfold ndim in *;
      cbn [shape]; eexists _, _, _; (split; [reflexivity|]);
      cbn [kind shape]; (split; [reflexivity|]);
      rewrite Hrank; reflexivity.
  - eexists _, _, _. split; [reflexivity|]. split; reflexivity.
Qed.

(** C8, the invocations on which the flat variant does not do what its
    docstring and the specification say.  For a flat metric and a single
    in-memory experimental pattern (a NumPy array of rank 2),
    [_get_nav_shape] returns the empty navigation shape [()], [np.prod]
    of it is the float [1.0], and [reshape] raises [TypeError]: the
    measurement step, and with it every call whose promotion adds no axis
    to the pattern (promotion off, or a declared scope other than
    many-to-one), raises before the compare function is reached.  The
    same pattern as a lazy (Dask) array is reshaped to (1, signal size)
    and handed to the compare function. *)
Theorem flat_measure_raises_type_error_for_in_memory_single_pattern
    (m : Metric) (e s : ndarray) (st : store) :
  metric_cls m = FlatSimilarityMetric ->
  ndim e = 2 ->
  kind e = Numpy ->
  _get_nav_shape e = Ok [] /\
  np_prod [] = NpFloat (f_one float64) /\
  _measure m e s st = Raise TypeError /\
  (_make_compatible_to_lower_scopes m = false \/ scope m <> MANY_TO_ONE ->
   __call__ m e s st = Raise TypeError) /\
  (let lazy := mk_array Dask (dt e) (base e) (shape e) in
   sig_size e <> 0%nat ->
   (shape_size (shape s) mod sig_size e = 0)%nat ->
   _measure m lazy s st
   = _metric_func m (as_matrix lazy 1 (sig_size e))
       (as_matrix s (shape_size (shape s) / sig_size e) (sig_size e)) st).
Proof.
  intros Hcls Hrank Hk.
  assert (Hlen : length (shape e) = 2%nat) by (unfold ndim in Hrank; lia).
  destruct (flat_measure_rank_2 m e s st Hcls Hlen) as [Hnav Hm].
  rewrite Hk in Hm.
  split; [exact Hnav|]. split; [reflexivity|]. split; [exact Hm|]. split.
  - intros Hsc.
    destruct (cast_and_promoted_flat_rank_2 m e s st Hcls Hrank Hsc)
      as (e2 & s2 & st2 & Hcp & Hk2 & Hsh2).
    rewrite call_eq, Hcp.
    assert (Hlen2 : length (shape e2) = 2%nat) by (rewrite Hsh2; exact Hlen).
    destruct (flat_measure_rank_2 m e2 s2 st2 Hcls Hlen2) as [_ Hm2].
    rewrite Hk2, Hk in Hm2.
    unfold mbind, M_bind. rewrite Hm2. reflexivity.
  - intros lazy Hsig Hmod.
    destruct (flat_measure_rank_2 m lazy s st Hcls Hlen) as [_ Hl].
    rewrite Hl. cbn [lazy kind].
    change (sig_size lazy) with (sig_size e).
    rewrite (proj2 (Nat.eqb_neq _ _) Hsig), (proj2 (Nat.eqb_eq _ _) Hmod).
    reflexivity.
Qed.

Lemma flat_measure_raises_type_error_for_in_memory_single_pattern_witness :
  let m := make_similarity_metric flat_dot true ONE_TO_ONE true false float32 in
  let e := np32 0 [2; 2]%nat in
  let s := np32 1 [2; 2]%nat in
  _is_compatible m (ndim e) (ndim s) = true /\
  __call__ m e s example_store = Raise TypeError /\
  exists r st', __call__ m (da32 0 [2; 2]%nat) s example_store = Ok (r, st').
Proof.
  cbv zeta. split; [reflexivity|]. split.
  - apply (flat_measure_raises_type_error_for_in_memory_single_pattern
             (make_similarity_metric flat_dot true ONE_TO_ONE true false float32)
             (np32 0 [2; 2]%nat) (np32 1 [2; 2]%nat) example_store
             eq_refl eq_refl eq_refl).
    left. reflexivity.
  - eexists _, _. vm_compute. reflexivity.
Defined.

(* ===================================================================== *)
(** * Row-major indexing *)
(* ===================================================================== *)

Lemma length_indices sh : length (indices sh) = shape_size sh.
Proof.
  induction sh as [|n sh IH]; [reflexivity|].
  cbn [indices shape_size foldr]. fold (shape_size sh).
  rewrite <- IH. generalize 0%nat as start.
  induction n as [|n IHn]; intros start; [reflexivity|].
  cbn [seq flat_map]. rewrite length_app, length_map, IHn. reflexivity.
Qed.















(* ===================================================================== *)
(** * Well-formed arrays through the update steps *)
(* ===================================================================== *)

Lemma shape_size_ones n sh : shape_size (replicate n 1%nat ++ sh) = shape_size sh.
Proof.
  induction n as [|n IH]; [reflexivity|].
  cbn [replicate app shape_size foldr]. fold (shape_size (replicate n 1%nat ++ sh)).
  rewrite IH. lia.
Qed.

Lemma shape_size_squeeze sh :
  shape_size (filter (fun n => n <> 1%nat) sh) = shape_size sh.
Proof.
  induction sh as [|n sh IH]; [reflexivity|].
  destruct (decide (n = 1%nat)) as [->|Hn].
  - rewrite filter_cons_False by (intros H; apply H; reflexivity).
    rewrite IH. cbn [shape_size foldr]. fold (shape_size sh). lia.
  - rewrite filter_cons_True by exact Hn.
    cbn [shape_size foldr]. fold (shape_size sh).
    fold (shape_size (filter (fun n => n <> 1%nat) sh)). rewrite IH. reflexivity.
Qed.

Lemma wf_view st a b :
  base b = base a -> shape_size (shape b) = shape_size (shape a) ->
  wf st a -> wf st b.
Proof. unfold wf, data. intros -> ->. auto. Qed.

Lemma wf_squeeze st a : wf st a -> wf st (squeeze a).
Proof. apply wf_view; [reflexivity|]. apply shape_size_squeeze. Qed.



Lemma expand_facts e s (flat : bool) ex sx :
  _expand_dims_to_many_to_many e s flat = (ex, sx) ->
  (kind ex = kind e /\ base ex = base e /\ dt ex = dt e /\
   shape_size (shape ex) = shape_size (shape e)) /\
  (kind sx = kind s /\ base sx = base s /\ dt sx = dt s /\
   shape_size (shape sx) = shape_size (shape s)).
Proof.
  unfold _expand_dims_to_many_to_many.
  destruct (_SCOPE_TO_EXPT_SIM_NDIM _ _) as [a b].
  intros H. injection H as <- <-. cbn [getitem_newaxes kind base dt shape].
  rewrite !shape_size_ones. repeat split.
Qed.



Lemma utility_returns_kinds (flat : bool) e s st e' s' st' :
  utility_returns e s flat st e' s' st' ->
  kind e' = kind e /\ kind s' = kind s /\ dt e' = dt e /\ dt s' = dt s.
Proof.
  unfold utility_returns. destruct (_expand_dims_to_many_to_many e s flat).
  intros (_ & _ & H1 & H2 & H3 & H4 & _). auto.
Qed.

(** The values after the two update steps of a utility, for inputs in
    distinct buffers. *)
Lemma two_updates_values e s (flat : bool) st ex sx e1 st1 s1 st2
    (ve vs : list scalar) :
  _expand_dims_to_many_to_many e s flat = (ex, sx) ->
  (base e < length st)%nat -> (base s < length st)%nat -> base e <> base s ->
  rebound st ex e1 -> preserves (not_buffer_of ex) st st1 ->
  (base e1 < length st1)%nat -> data st1 e1 = ve ->
  rebound st1 sx s1 -> preserves (not_buffer_of sx) st1 st2 ->
  data st1 sx = data st sx /\
  (data st2 s1 = vs ->
   data st2 e1 = ve /\ data st2 s1 = vs /\
   (kind e = Numpy -> data st2 e = ve) /\
   (kind s = Numpy -> data st2 s = vs)).
Proof.
  intros Hex Hbe Hbs Hne (_ & _ & _ & Hn1 & Hl1) Hp1 Hb1 Hd1
    (_ & _ & _ & Hn2 & _) Hp2.
  destruct (expand_facts _ _ _ _ _ Hex)
    as ((Hke & Hbex & _ & _) & (Hks & Hbsx & _ & _)).
  assert (Hsx : data st1 sx = data st sx).
  { apply (data_preserved _ _ _ _ Hp1); [lia|].
    unfold not_buffer_of. intros _. congruence. }
  split; [exact Hsx|]. intros Hd2.
  assert (He1 : data st2 e1 = ve).
  { rewrite <- Hd1. apply (data_preserved _ _ _ _ Hp2 Hb1).
    unfold not_buffer_of. intros _. destruct (kind ex) eqn:Hk.
    - rewrite (Hn1 eq_refl). congruence.
    - specialize (Hl1 eq_refl). lia. }
  split; [exact He1|]. split; [exact Hd2|]. split.
  - intros Hk. rewrite <- Hke in Hk. specialize (Hn1 Hk). subst e1.
    rewrite <- He1. unfold data. rewrite Hbex. reflexivity.
  - intros Hk. rewrite <- Hks in Hk. specialize (Hn2 Hk). subst s1.
    rewrite <- Hd2. unfold data. rewrite Hbsx. reflexivity.
Qed.

Lemma updated_in_place_intro vals e s st e' s' st' e1 s1 :
  writes_only_in_memory_inputs e s st e' s' st' ->
  (base e < length st)%nat -> (base s < length st)%nat -> base e <> base s ->
  base e' = base e1 -> base s' = base s1 ->
  data st' e1 = vals.1 -> data st' s1 = vals.2 ->
  (kind e = Numpy -> data st' e = vals.1) ->
  (kind s = Numpy -> data st' s = vals.2) ->
  updated_in_place vals e s st e' s' st'.
Proof.
  intros (_ & _ & _ & Hde & Hds) Hbe Hbs Hne Hbe' Hbs' He1 Hs1 Hne' Hns'.
  unfold updated_in_place. split; [|split; [|split; [|split; [|split]]]].
  - rewrite <- He1. unfold data. rewrite Hbe'. reflexivity.
  - rewrite <- Hs1. unfold data. rewrite Hbs'. reflexivity.
  - exact Hne'.
  - exact Hns'.
  - intros Hk. apply (Hde Hk Hbe). unfold not_buffer_of. congruence.
  - intros Hk. apply (Hds Hk Hbs). unfold not_buffer_of. congruence.
Qed.

(** [_zero_mean] returns, and for two arrays in distinct buffers leaves
    behind the centred values. *)
Lemma zero_mean_updates (flat : bool) e s st :
  exists e' s' st',
    _zero_mean e s flat st = Ok ((e', s'), st') /\
    writes_only_in_memory_inputs e s st e' s' st' /\
    (wf st e -> wf st s -> base e <> base s ->
     updated_in_place (zero_mean_values flat st e s) e s st e' s' st').
Proof.
  destruct (expanded_axes_ok flat e s) as [Hax1 Hax2].
  pose proof (two_steps_return e s flat st) as Hret.
  pose proof (two_updates_values e s flat st) as Hval.
  unfold _zero_mean, zero_mean_values.
  destruct (_expand_dims_to_many_to_many e s flat) as [ex sx] eqn:Hex.
  destruct (expand_facts _ _ _ _ _ Hex)
    as ((Hke & Hbe & Hde & Hse) & (Hks & Hbs & Hds & Hss)).
  cbn [fst snd] in *.
  destruct (zero_mean_step ex _ st Hax1) as (e1 & st1 & Heq1 & Hr1 & Hp1 & Hd1).
  destruct (zero_mean_step sx _ st1 Hax2) as (s1 & st2 & Heq2 & Hr2 & Hp2 & Hd2).
  exists (if no_singleton e s then squeeze e1 else e1),
    (if no_singleton e s then squeeze s1 else s1), st2.
  assert (Hur : utility_returns e s flat st
                  (if no_singleton e s then squeeze e1 else e1)
                  (if no_singleton e s then squeeze s1 else s1) st2)
    by exact (Hret e1 st1 s1 st2 (no_singleton e s) eq_refl Hr1 Hp1 Hr2 Hp2).
  pose proof (utility_returns_writes _ _ _ _ _ _ _ Hur) as Hw.
  split; [|split; [exact Hw|]].
  - destruct flat; rewrite Heq1, Heq2; destruct (no_singleton e s); reflexivity.
  - intros [Hlte _] [Hlts _] Hne.
    assert (Hltex : (base ex < length st)%nat) by (rewrite Hbe; exact Hlte).
    destruct (Hd1 Hltex) as [Hb1 Hdata1].
    destruct (Hval ex sx e1 st1 s1 st2 _
                (minus_mean (dt sx) (if flat then [1%nat] else [1%nat; 2%nat])
                   (shape sx) (data st sx))
                eq_refl Hlte Hlts Hne Hr1 Hp1 Hb1 Hdata1 Hr2 Hp2)
      as [Hsx Hrest].
    assert (Hltsx : (base sx < length st1)%nat).
    { rewrite Hbs. destruct Hp1 as [Hl _]. lia. }
    destruct (Hd2 Hltsx) as [Hb2 Hdata2].
    rewrite Hsx in Hdata2.
    destruct (Hrest Hdata2) as (He1 & Hs1 & Hne1 & Hns1).
    apply (updated_in_place_intro _ e s st _ _ st2 e1 s1 Hw Hlte Hlts Hne);
      try assumption; destruct (no_singleton e s); reflexivity.
Qed.

(** [_normalize] returns, and for two arrays in distinct buffers leaves
    behind the normalised values. *)
Lemma normalize_updates (flat : bool) e s st :
  exists e' s' st',
    _normalize e s flat st = Ok ((e', s'), st') /\
    writes_only_in_memory_inputs e s st e' s' st' /\
    (wf st e -> wf st s -> base e <> base s ->
     updated_in_place (normalize_values flat st e s) e s st e' s' st').
Proof.
  destruct (expanded_axes_ok flat e s) as [Hax1 Hax2].
  pose proof (two_steps_return e s flat st) as Hret.
  pose proof (two_updates_values e s flat st) as Hval.
  unfold _normalize, normalize_values.
  destruct (_expand_dims_to_many_to_many e s flat) as [ex sx] eqn:Hex.
  destruct (expand_facts _ _ _ _ _ Hex)
    as ((Hke & Hbe & Hde & Hse) & (Hks & Hbs & Hds & Hss)).
  cbn [fst snd] in *.
  destruct (normalize_step ex _ st Hax1) as (e1 & st1 & Heq1 & Hr1 & Hp1 & Hd1).
  destruct (normalize_step sx _ st1 Hax2) as (s1 & st2 & Heq2 & Hr2 & Hp2 & Hd2).
  exists (if no_singleton e s then squeeze e1 else e1),
    (if no_singleton e s then squeeze s1 else s1), st2.
  assert (Hur : utility_returns e s flat st
                  (if no_singleton e s then squeeze e1 else e1)
                  (if no_singleton e s then squeeze s1 else s1) st2)
    by exact (Hret e1 st1 s1 st2 (no_singleton e s) eq_refl Hr1 Hp1 Hr2 Hp2).
  pose proof (utility_returns_writes _ _ _ _ _ _ _ Hur) as Hw.
  split; [|split; [exact Hw|]].
  - destruct flat; rewrite Heq1, Heq2; destruct (no_singleton e s); reflexivity.
  - intros [Hlte _] [Hlts _] Hne.
    assert (Hltex : (base ex < length st)%nat) by (rewrite Hbe; exact Hlte).
    destruct (Hd1 Hltex) as [Hb1 Hdata1].
    destruct (Hval ex sx e1 st1 s1 st2 _
                (over_norm (dt sx) (if flat then [1%nat] else [1%nat; 2%nat])
                   (shape sx) (data st sx))
                eq_refl Hlte Hlts Hne Hr1 Hp1 Hb1 Hdata1 Hr2 Hp2)
      as [Hsx Hrest].
    assert (Hltsx : (base sx < length st1)%nat).
    { rewrite Hbs. destruct Hp1 as [Hl _]. lia. }
    destruct (Hd2 Hltsx) as [Hb2 Hdata2].
    rewrite Hsx in Hdata2.
    destruct (Hrest Hdata2) as (He1 & Hs1 & Hne1 & Hns1).
    apply (updated_in_place_intro _ e s st _ _ st2 e1 s1 Hw Hlte Hlts Hne);
      try assumption; destruct (no_singleton e s); reflexivity.
Qed.

(** C2 (as amended).  [_zero_mean] and [_normalize] always return, and
    write to no buffer other than those of their in-memory (NumPy) inputs.
    They are not pure: for two well-formed arrays in distinct buffers, an
    in-memory input is overwritten, and holds after the call the centred
    (normalised) values, which are also the values of the returned arrays;
    a lazy (Dask) input keeps the values it had.  A call of one of the two
    registered metrics runs the utilities on casts of its inputs and
    changes no buffer that existed before the call. *)
Theorem utilities_update_in_memory_inputs_in_place
    (flat : bool) (e s : ndarray) (st : store) :
  (exists e' s' st',
     _zero_mean e s flat st = Ok ((e', s'), st') /\
     writes_only_in_memory_inputs e s st e' s' st' /\
     (wf st e -> wf st s -> base e <> base s ->
      updated_in_place (zero_mean_values flat st e s) e s st e' s' st')) /\
  (exists e' s' st',
     _normalize e s flat st = Ok ((e', s'), st') /\
     writes_only_in_memory_inputs e s st e' s' st' /\
     (wf st e -> wf st s -> base e <> base s ->
      updated_in_place (normalize_values flat st e s) e s st e' s' st')) /\
  (forall m r st',
     m = zncc_metric \/ m = ndp_metric ->
     __call__ m e s st = Ok (r, st') ->
     preserves (fun _ => True) st st').
Proof.
  split; [|split].
  - apply zero_mean_updates.
  - apply normalize_updates.
  - intros m r st' Hm. rewrite call_eq.
    destruct (cast_and_promoted m e s st) as [[e2 s2] st2] eqn:Hcp.
    apply cast_and_promoted_facts in Hcp
      as (_ & _ & _ & _ & Hbe & Hbs & _ & Hp0).
    intros H. apply bind_Ok_inv in H as (r0 & st3 & Hr0 & H).
    injection H as _ <-.
    assert (Hw : preserves (fun b => not_buffer_of e2 b /\ not_buffer_of s2 b) st2 st3).
    { apply (metric_func_writes (_metric_func m) e2 s2 st2 r0 st3).
      - destruct Hm as [-> | ->]; [left | right]; reflexivity.
      - destruct Hm as [-> | ->]; exact Hr0. }
    destruct Hp0 as [Hl0 Hp0], Hw as [Hl1 Hw]. split; [lia|].
    intros b Hb _. rewrite Hw.
    + apply Hp0; [exact Hb | exact I].
    + lia.
    + unfold not_buffer_of. rewrite Hbe, Hbs. split; intros _; lia.
Qed.

Lemma utilities_update_in_memory_inputs_in_place_witness :
  let e := np32 0 [2; 2]%nat in
  let s := da32 1 [2; 2]%nat in
  (exists e' s' st',
     _zero_mean e s false example_store = Ok ((e', s'), st') /\
     data st' e = f32_half <$> [-3; -1; 1; 3] /\
     data st' e' = f32_half <$> [-3; -1; 1; 3] /\
     data st' s = f32 <$> [1; 2; 3; 5]) /\
  (exists r st',
     __call__ zncc_metric e s example_store = Ok (r, st') /\
     data st' e = f32 <$> [1; 2; 3; 4] /\
     data st' s = f32 <$> [1; 2; 3; 5]).
Proof.
  cbv zeta.
  destruct (utilities_update_in_memory_inputs_in_place false
              (np32 0 [2; 2]%nat) (da32 1 [2; 2]%nat) example_store)
    as ((e' & s' & st' & Heq & _ & Hupd) & _ & Hcall).
  split.
  - exists e', s', st'. split; [exact Heq|].
    destruct Hupd as (He' & _ & He & _ & _ & Hs).
    + split; [cbn; lia | reflexivity].
    + split; [cbn; lia | reflexivity].
    + cbn. lia.
    + split; [|split].
      * rewrite (He eq_refl). vm_compute. reflexivity.
      * rewrite He'. vm_compute. reflexivity.
      * rewrite (Hs eq_refl). reflexivity.
  - destruct (__call__ zncc_metric (np32 0 [2; 2]%nat) (da32 1 [2; 2]%nat) example_store)
      as [[r st'']|err] eqn:Hc; [|vm_compute in Hc; discriminate].
    specialize (Hcall zncc_metric r st'' (or_introl eq_refl) Hc).
    exists r, st''. split; [reflexivity|]. split.
    + rewrite (data_preserved _ _ _ _ Hcall); [reflexivity | cbn; lia | exact I].
    + rewrite (data_preserved _ _ _ _ Hcall); [reflexivity | cbn; lia | exact I].
Defined.




(* ===================================================================== *)
(** * Range of the two metrics *)
(* ===================================================================== *)

(** C5, evaluation at the failing inputs.  The registered zncc metric on
    a constant experimental pattern, and the registered ndp metric on an
    all-zero experimental pattern, return NaN, which lies in no
    interval: the pattern is divided by its norm 0. *)
Theorem metrics_return_nan_for_zero_norm_pattern :
  let constant := np32 2 [2; 2]%nat in
  let zero := np32 3 [2; 2]%nat in
  let s := np32 1 [2; 2]%nat in
  data example_store constant = f32 <$> [1; 1; 1; 1] /\
  data example_store zero = f32 <$> [0; 0; 0; 0] /\
  data example_store s = f32 <$> [1; 2; 3; 5] /\
  (exists r st',
     __call__ zncc_metric constant s example_store = Ok (r, st') /\
     data st' r = [S754_nan]) /\
  (exists r st',
     __call__ ndp_metric zero s example_store = Ok (r, st') /\
     data st' r = [S754_nan]) /\
  in_range (f32 (-1)) (f32 1) S754_nan = false /\
  in_range (f32 0) (f32 1) S754_nan = false.
Proof.
  cbv zeta. repeat split; try reflexivity.
  - eexists _, _. split; vm_compute; reflexivity.
  - eexists _, _. split; vm_compute; reflexivity.
Qed.

(* ===================================================================== *)
(** * The class tables *)
(* ===================================================================== *)

Ltac in_list :=
  repeat first [apply list_elem_of_here | apply list_elem_of_further].

Lemma lookup_scope_iff_ranks (c : metric_class) (sc : MetricScope) (k : Z * Z) :
  _EXPT_SIM_NDIM_TO_SCOPE c !! k = Some sc <-> _SCOPE_TO_EXPT_SIM_NDIM c sc = k.
Proof.
  split.
  - destruct k as [a b]. destruct c; cbn [_EXPT_SIM_NDIM_TO_SCOPE];
      rewrite !lookup_insert, lookup_empty;
      repeat case_decide; intros Hsc; try discriminate;
      injection Hsc as <-;
      match goal with Heq : (_, _) = (_, _) |- _ => rewrite <- Heq end;
      reflexivity.
  - intros <-. destruct c, sc; reflexivity.
Qed.

(** X1.  In each class, the two rank tables are inverse to each other:
    the rank pair that [_SCOPE_TO_EXPT_SIM_NDIM] gives for a scope is
    mapped back to that scope by [_EXPT_SIM_NDIM_TO_SCOPE], a pair that
    maps to a scope is the pair listed for it, and no two scopes share a
    rank pair. *)
Theorem rank_tables_are_inverse (c : metric_class) :
  (forall sc, _EXPT_SIM_NDIM_TO_SCOPE c !! _SCOPE_TO_EXPT_SIM_NDIM c sc = Some sc) /\
  (forall k sc, _EXPT_SIM_NDIM_TO_SCOPE c !! k = Some sc ->
                _SCOPE_TO_EXPT_SIM_NDIM c sc = k) /\
  (forall sc sc', _SCOPE_TO_EXPT_SIM_NDIM c sc = _SCOPE_TO_EXPT_SIM_NDIM c sc' ->
                  sc = sc').
Proof.
  split; [|split].
  - intros sc. apply lookup_scope_iff_ranks. reflexivity.
  - intros k sc. apply lookup_scope_iff_ranks.
  - intros sc sc' Heq.
    pose proof (proj2 (lookup_scope_iff_ranks c sc _) eq_refl) as H1.
    pose proof (proj2 (lookup_scope_iff_ranks c sc' _) eq_refl) as H2.
    rewrite Heq in H1. congruence.
Qed.

Lemma rank_tables_are_inverse_witness :
  _SCOPE_TO_EXPT_SIM_NDIM FlatSimilarityMetric MANY_TO_ONE = (3, 1).
Proof.
  apply (proj1 (proj2 (rank_tables_are_inverse FlatSimilarityMetric))).
  reflexivity.
Defined.

(** X2.  Without promotion, [_is_compatible] accepts exactly one rank
    pair: the pair listed for the declared scope in the table of the
    metric's class, compared with the input ranks of a nested metric and
    with [(expt_ndim // 2, sim_ndim - 1)] when the [flat] attribute is
    set. *)
Theorem without_promotion_only_declared_ranks_accepted
    (m : Metric) (expt_ndim sim_ndim : Z) :
  _make_compatible_to_lower_scopes m = false ->
  (_is_compatible m expt_ndim sim_ndim = true <->
   (if flat m then (expt_ndim `div` 2, sim_ndim - 1) else (expt_ndim, sim_ndim))
   = _SCOPE_TO_EXPT_SIM_NDIM (metric_cls m) (scope m)).
Proof.
  intros Hp. rewrite is_compatible_spec. unfold scope_allowed. rewrite Hp. split.
  - intros (sc & Hsc & [-> | [Hf _]]); [|discriminate].
    symmetry. apply lookup_scope_iff_ranks. exact Hsc.
  - intros Heq. exists (scope m). split; [|left; reflexivity].
    apply lookup_scope_iff_ranks. symmetry. exact Heq.
Qed.

Lemma without_promotion_only_declared_ranks_accepted_witness :
  let m := make_similarity_metric first_argument true ONE_TO_MANY false false float32 in
  _is_compatible m 2 3 = true /\ _is_compatible m 2 2 = false.
Proof.
  cbv zeta.
  pose proof (without_promotion_only_declared_ranks_accepted
                (make_similarity_metric first_argument true ONE_TO_MANY false false float32))
    as H.
  split.
  - apply (H 2 3 eq_refl). reflexivity.
  - destruct (_is_compatible _ 2 2) eqn:Hc; [|reflexivity].
    apply (H 2 2 eq_refl) in Hc. discriminate.
Defined.

(** X3.  The two registered metrics (many-to-many, nested, with
    promotion) are compatible with exactly the four nested rank pairs
    (4, 3), (2, 3), (4, 2) and (2, 2). *)
Theorem registered_metrics_accept_the_four_nested_rank_pairs
    (m : Metric) (expt_ndim sim_ndim : Z) :
  m = zncc_metric \/ m = ndp_metric ->
  (_is_compatible m expt_ndim sim_ndim = true <->
   (expt_ndim, sim_ndim) ∈ [(4, 3); (2, 3); (4, 2); (2, 2)]).
Proof.
  intros Hm. rewrite is_compatible_spec.
  assert (Hfields : flat m = false /\ metric_cls m = SimilarityMetric /\
                    scope m = MANY_TO_MANY /\
                    _make_compatible_to_lower_scopes m = true)
    by (destruct Hm as [-> | ->]; repeat split).
  destruct Hfields as (-> & -> & Hs & Hp).
  unfold scope_allowed. rewrite Hs, Hp. split.
  - intros (sc & Hsc & _). apply lookup_scope_iff_ranks in Hsc. rewrite <- Hsc.
    destruct sc; cbn [_SCOPE_TO_EXPT_SIM_NDIM]; in_list.
  - intros Hin.
    assert (Hex : exists sc, _SCOPE_TO_EXPT_SIM_NDIM SimilarityMetric sc
                             = (expt_ndim, sim_ndim)).
    { repeat (apply elem_of_cons in Hin as [Hin | Hin]);
        [exists MANY_TO_MANY | exists ONE_TO_MANY | exists MANY_TO_ONE
        | exists ONE_TO_ONE | apply elem_of_nil in Hin; contradiction];
        rewrite Hin; reflexivity. }
    destruct Hex as [sc Hsc]. exists sc. split.
    + apply lookup_scope_iff_ranks. exact Hsc.
    + destruct sc; [left; reflexivity | right | right | right];
        (split; [reflexivity | cbn [_SCOPE_TO_LOWER_SCOPES]; in_list]).
Qed.

Lemma registered_metrics_accept_the_four_nested_rank_pairs_witness :
  _is_compatible zncc_metric 2 2 = true /\ _is_compatible ndp_metric 3 3 = false.
Proof.
  split.
  - apply (registered_metrics_accept_the_four_nested_rank_pairs zncc_metric 2 2
             (or_introl eq_refl)).
    in_list.
  - destruct (_is_compatible ndp_metric 3 3) eqn:Hc; [|reflexivity].
    apply (registered_metrics_accept_the_four_nested_rank_pairs ndp_metric 3 3
             (or_intror eq_refl)) in Hc.
    repeat (apply elem_of_cons in Hc as [Hc | Hc]; [discriminate|]).
    apply elem_of_nil in Hc. contradiction.
Defined.

Ltac not_in_list H :=
  repeat (apply elem_of_cons in H as [H | H]; [discriminate|]);
  apply elem_of_nil in H; contradiction.

Lemma lower_scope_ranks_nested (s sc : MetricScope) :
  sc ∈ _SCOPE_TO_LOWER_SCOPES s ->
  fst (_SCOPE_TO_EXPT_SIM_NDIM SimilarityMetric sc)
  <= fst (_SCOPE_TO_EXPT_SIM_NDIM SimilarityMetric s) /\
  snd (_SCOPE_TO_EXPT_SIM_NDIM SimilarityMetric sc)
  <= snd (_SCOPE_TO_EXPT_SIM_NDIM SimilarityMetric s).
Proof.
  destruct s, sc; cbn [_SCOPE_TO_LOWER_SCOPES _SCOPE_TO_EXPT_SIM_NDIM fst snd];
    intros H; try (split; lia); not_in_list H.
Qed.

(** X4.  Promotion only ever has to add axes: in the nested tables every
    lower scope of a scope needs at most the ranks of that scope, for the
    experimental and for the simulated array.  The flat tables keep this
    for every pair but one: many-to-one is a lower scope of many-to-many
    and its experimental rank, 3, exceeds the many-to-many rank 2. *)
Theorem lower_scopes_need_no_more_axes :
  (forall s sc,
     sc ∈ _SCOPE_TO_LOWER_SCOPES s ->
     fst (_SCOPE_TO_EXPT_SIM_NDIM SimilarityMetric sc)
     <= fst (_SCOPE_TO_EXPT_SIM_NDIM SimilarityMetric s) /\
     snd (_SCOPE_TO_EXPT_SIM_NDIM SimilarityMetric sc)
     <= snd (_SCOPE_TO_EXPT_SIM_NDIM SimilarityMetric s)) /\
  (forall s sc,
     sc ∈ _SCOPE_TO_LOWER_SCOPES s ->
     (s, sc) <> (MANY_TO_MANY, MANY_TO_ONE) ->
     fst (_SCOPE_TO_EXPT_SIM_NDIM FlatSimilarityMetric sc)
     <= fst (_SCOPE_TO_EXPT_SIM_NDIM FlatSimilarityMetric s) /\
     snd (_SCOPE_TO_EXPT_SIM_NDIM FlatSimilarityMetric sc)
     <= snd (_SCOPE_TO_EXPT_SIM_NDIM FlatSimilarityMetric s)) /\
  (MANY_TO_ONE ∈ _SCOPE_TO_LOWER_SCOPES MANY_TO_MANY /\
   fst (_SCOPE_TO_EXPT_SIM_NDIM FlatSimilarityMetric MANY_TO_MANY)
   < fst (_SCOPE_TO_EXPT_SIM_NDIM FlatSimilarityMetric MANY_TO_ONE)).
Proof.
  split; [exact lower_scope_ranks_nested|]. split.
  - intros s sc.
    destruct s, sc; cbn [_SCOPE_TO_LOWER_SCOPES _SCOPE_TO_EXPT_SIM_NDIM fst snd];
      intros H Hne; try (split; lia); try not_in_list H.
    exfalso. apply Hne. reflexivity.
  - split; [cbn [_SCOPE_TO_LOWER_SCOPES]; in_list | cbn; lia].
Qed.

Lemma lower_scopes_need_no_more_axes_witness :
  fst (_SCOPE_TO_EXPT_SIM_NDIM SimilarityMetric ONE_TO_MANY)
  <= fst (_SCOPE_TO_EXPT_SIM_NDIM SimilarityMetric MANY_TO_MANY).
Proof.
  apply (proj1 lower_scopes_need_no_more_axes MANY_TO_MANY ONE_TO_MANY).
  cbn [_SCOPE_TO_LOWER_SCOPES]. in_list.
Defined.

(* ===================================================================== *)
(** * Promotion *)
(* ===================================================================== *)

Lemma ndim_newaxes a n : ndim (getitem_newaxes a n) = Z.max n 0 + ndim a.
Proof. unfold ndim. rewrite length_newaxes. lia. Qed.

Lemma newaxes_nonpositive a n : n <= 0 -> getitem_newaxes a n = mk_array (kind a) (dt a) (base a) (shape a).
Proof.
  intros Hn. unfold getitem_newaxes.
  replace (Z.to_nat n) with 0%nat by lia. reflexivity.
Qed.

(** X5.  For a nested metric, inputs whose ranks [_is_compatible] accepts
    reach the compare function with exactly the ranks listed for the
    declared scope, with or without promotion. *)
Theorem accepted_inputs_reach_declared_ranks
    (m : Metric) (e s : ndarray) (st : store) :
  metric_cls m = SimilarityMetric ->
  flat m = false ->
  _is_compatible m (ndim e) (ndim s) = true ->
  let '(e2, s2, st2) := cast_and_promoted m e s st in
  (ndim e2, ndim s2) = _SCOPE_TO_EXPT_SIM_NDIM SimilarityMetric (scope m) /\
  __call__ m e s st = squeezed (_metric_func m e2 s2 st2).
Proof.
  intros Hcls Hflat Hc.
  pose proof (call_nested_eq m e s st Hcls) as Hcall.
  apply is_compatible_spec in Hc as (sc & Hsc & Hal).
  rewrite Hcls, Hflat in Hsc. apply lookup_scope_iff_ranks in Hsc.
  unfold cast_and_promoted, _expand_dims_to_match_scope in *.
  rewrite Hcls in *.
  destruct (_SCOPE_TO_EXPT_SIM_NDIM SimilarityMetric (scope m)) as [te ts] eqn:Ht.
  assert (Hle : ndim e <= te /\ ndim s <= ts /\
                (_make_compatible_to_lower_scopes m = false ->
                 ndim e = te /\ ndim s = ts)).
  { destruct Hal as [-> | [Hp Hin]].
    - rewrite Ht in Hsc. injection Hsc as <- <-. repeat split; lia.
    - apply lower_scope_ranks_nested in Hin. rewrite Hsc, Ht in Hin.
      cbn [fst snd] in Hin. repeat split; try lia; congruence. }
  destruct Hle as (Hle1 & Hle2 & Hnp).
  destruct (_make_compatible_to_lower_scopes m).
  - split; [|exact Hcall]. rewrite !ndim_newaxes. unfold ndim. cbn [shape].
    unfold ndim in Hle1, Hle2. f_equal; lia.
  - split; [|exact Hcall]. destruct (Hnp eq_refl) as [<- <-]. reflexivity.
Qed.

Lemma accepted_inputs_reach_declared_ranks_witness :
  let '(e2, s2, _) :=
    cast_and_promoted zncc_metric (np32 0 [2; 2]%nat) (np32 1 [1; 2; 2]%nat)
      example_store in
  (ndim e2, ndim s2) = (4, 3).
Proof.
  pose proof (accepted_inputs_reach_declared_ranks zncc_metric
                (np32 0 [2; 2]%nat) (np32 1 [1; 2; 2]%nat) example_store
                eq_refl eq_refl eq_refl) as H.
  destruct (cast_and_promoted zncc_metric _ _ example_store) as [[e2 s2] st2].
  exact (proj1 H).
Defined.

(** X6.  [_expand_dims_to_match_scope] only prepends axes of length one:
    each returned array is a view of the same buffer, of the same kind and
    dtype, whose shape ends with the shape of the input and whose rank is
    the larger of the input rank and the rank listed for the declared
    scope; an array that already has more axes is handed back as it is.
    Expanding twice is expanding once, and [_expand_dims_to_many_to_many]
    is the expansion of a many-to-many metric of the class chosen by its
    [flat] argument. *)
Theorem expand_dims_only_prepends_singleton_axes (m : Metric) (e s : ndarray) :
  let '(e', s') := _expand_dims_to_match_scope m e s in
  let '(te, ts) := _SCOPE_TO_EXPT_SIM_NDIM (metric_cls m) (scope m) in
  (shape e' = replicate (Z.to_nat (te - ndim e)) 1%nat ++ shape e /\
   ndim e' = Z.max te (ndim e) /\
   base e' = base e /\ kind e' = kind e /\ dt e' = dt e) /\
  (shape s' = replicate (Z.to_nat (ts - ndim s)) 1%nat ++ shape s /\
   ndim s' = Z.max ts (ndim s) /\
   base s' = base s /\ kind s' = kind s /\ dt s' = dt s) /\
  _expand_dims_to_match_scope m e' s' = (e', s') /\
  (scope m = MANY_TO_MANY ->
   _expand_dims_to_many_to_many e s
     (bool_decide (metric_cls m = FlatSimilarityMetric)) = (e', s')).
Proof.
  unfold _expand_dims_to_match_scope, _expand_dims_to_many_to_many.
  destruct (_SCOPE_TO_EXPT_SIM_NDIM (metric_cls m) (scope m)) as [te ts] eqn:Ht.
  split; [|split; [|split]].
  - repeat split. rewrite ndim_newaxes. lia.
  - repeat split. rewrite ndim_newaxes. lia.
  - rewrite (newaxes_nonpositive (getitem_newaxes e (te - ndim e)))
      by (rewrite ndim_newaxes; lia).
    rewrite (newaxes_nonpositive (getitem_newaxes s (ts - ndim s)))
      by (rewrite ndim_newaxes; lia).
    reflexivity.
  - intros Hs. rewrite Hs in Ht.
    destruct (metric_cls m);
      [rewrite bool_decide_eq_false_2 by discriminate
      |rewrite bool_decide_eq_true_2 by reflexivity];
      rewrite Ht; reflexivity.
Qed.

Lemma expand_dims_only_prepends_singleton_axes_witness :
  _expand_dims_to_many_to_many (np32 0 [2; 2]%nat) (np32 1 [2; 2]%nat) false
  = (np32 0 [1; 1; 2; 2]%nat, np32 1 [1; 2; 2]%nat).
Proof.
  pose proof (expand_dims_only_prepends_singleton_axes zncc_metric
                (np32 0 [2; 2]%nat) (np32 1 [2; 2]%nat)) as H.
  cbv beta iota zeta delta [_expand_dims_to_match_scope] in H.
  destruct (_SCOPE_TO_EXPT_SIM_NDIM (metric_cls zncc_metric) (scope zncc_metric))
    as [te ts] eqn:Ht.
  injection Ht as <- <-.
  destruct H as (_ & _ & _ & H).
  exact (H eq_refl).
Defined.

(* ===================================================================== *)
(** * Navigation shape, signal shape, number of simulated patterns *)
(* ===================================================================== *)

(** X7.  [_get_nav_shape] is defined exactly for arrays of rank 2, 3 and
    4; there the navigation shape followed by the signal shape of
    [_get_sig_shape] is the shape of the array, and the signal shape has
    two axes.  On a 0-d array the function raises [IndexError], on an
    array of rank 1 or of rank above 4 it raises [KeyError]. *)
Theorem nav_shape_and_sig_shape_split_the_shape (e : ndarray) :
  (forall nav, _get_nav_shape e = Ok nav ->
     2 <= ndim e <= 4 /\
     (nav ++ _get_sig_shape e)%list = shape e /\
     length (_get_sig_shape e) = 2%nat) /\
  (2 <= ndim e <= 4 -> exists nav, _get_nav_shape e = Ok nav) /\
  (ndim e = 0 -> _get_nav_shape e = Raise IndexError) /\
  (ndim e = 1 \/ 4 < ndim e -> _get_nav_shape e = Raise KeyError).
Proof.
  unfold _get_nav_shape, _get_sig_shape, ndim.
  destruct (shape e) as [|a [|b [|c [|d [|x l]]]]];
    cbn [length Nat.sub take drop app];
    (split;
     [ intros nav H;
       first [ discriminate H
             | injection H as <-; repeat split; solve [reflexivity | lia] ]
     | split;
       [ intros Hr; first [ eexists; reflexivity | exfalso; lia ]
       | split; intros Hr; first [ reflexivity | exfalso; lia ] ] ]).
Qed.

Lemma nav_shape_and_sig_shape_split_the_shape_witness :
  ([3; 4]%nat ++ _get_sig_shape (np32 0 [3; 4; 5; 6]%nat))%list = [3; 4; 5; 6]%nat.
Proof.
  apply (proj1 (nav_shape_and_sig_shape_split_the_shape (np32 0 [3; 4; 5; 6]%nat))
           [3; 4]%nat eq_refl).
Defined.

(** X8.  For a simulated array of rank 2 or 3, the number of elements is
    [_get_number_of_simulated] times the size of the signal shape, so that,
    for a signal of non-zero size, a reshape to (-1, signal size) returns
    [_get_number_of_simulated] rows.  For every
    rank other than 3, also 0, 1 and 4, the function returns 1. *)
Theorem number_of_simulated_times_signal_size (sim : ndarray) (st : store) :
  (ndim sim = 2 \/ ndim sim = 3 ->
   shape_size (shape sim)
   = (_get_number_of_simulated sim * shape_size (_get_sig_shape sim))%nat /\
   (shape_size (_get_sig_shape sim) <> 0%nat ->
    reshape sim [NpInt (-1); NpInt (Z.of_nat (shape_size (_get_sig_shape sim)))] st
    = Ok (as_matrix sim (_get_number_of_simulated sim)
            (shape_size (_get_sig_shape sim)), st))) /\
  (ndim sim <> 3 -> _get_number_of_simulated sim = 1%nat).
Proof.
  split.
  - intros Hr.
    assert (Hsize : shape_size (shape sim)
                    = (_get_number_of_simulated sim
                       * shape_size (_get_sig_shape sim))%nat).
    { unfold _get_number_of_simulated, _get_sig_shape, ndim in *.
      destruct (shape sim) as [|a [|b [|c [|d l]]]];
        cbn [length] in Hr; try (exfalso; lia);
        cbn [length Nat.sub drop shape_size foldr]; lia. }
    split; [exact Hsize|]. intros Hq.
    rewrite flat_reshape_simulated.
    rewrite (proj2 (Nat.eqb_neq _ _) Hq).
    set (q := shape_size (_get_sig_shape sim)) in *.
    set (n := _get_number_of_simulated sim) in *.
    rewrite Hsize, Nat.Div0.mod_mul, Nat.div_mul by exact Hq.
    reflexivity.
  - unfold _get_number_of_simulated, ndim.
    intros Hr. destruct (shape sim) as [|a [|b [|c [|d l]]]];
      cbn [length] in Hr; try reflexivity. exfalso. lia.
Qed.

Lemma number_of_simulated_times_signal_size_witness :
  shape_size [50; 10; 10]%nat
  = (_get_number_of_simulated (np32 0 [50; 10; 10]%nat) * shape_size [10; 10]%nat)%nat.
Proof.
  apply (proj1 (proj1 (number_of_simulated_times_signal_size
                         (np32 0 [50; 10; 10]%nat) []) (or_intror eq_refl))).
Defined.

(* ===================================================================== *)
(** * Results of a call *)
(* ===================================================================== *)

Lemma squeeze_no_singleton (a : ndarray) : 1%nat ∉ shape (squeeze a).
Proof.
  cbn [squeeze shape]. intros Hin. apply list_elem_of_filter in Hin as [Hne _].
  apply Hne. reflexivity.
Qed.

(** X9.  The array returned by a call is the squeezed result of the
    measurement step: it has no axis of length one, and as many elements
    as the array the measurement step returned.  In particular a metric
    applied to two single patterns returns a 0-d array, not an array of
    shape (1,). *)
Theorem call_result_has_no_axis_of_length_one
    (m : Metric) (e s : ndarray) (st : store) (r : ndarray) (st' : store) :
  __call__ m e s st = Ok (r, st') ->
  (1%nat ∉ shape r) /\
  exists r0,
    (let '(e2, s2, st2) := cast_and_promoted m e s st in
     _measure m e2 s2 st2 = Ok (r0, st')) /\
    r = squeeze r0 /\
    shape_size (shape r) = shape_size (shape r0).
Proof.
  rewrite call_eq.
  destruct (cast_and_promoted m e s st) as [[e2 s2] st2].
  intros H. apply bind_Ok_inv in H as (r0 & st3 & Hr0 & H).
  injection H as <- <-. split; [apply squeeze_no_singleton|].
  exists r0. split; [exact Hr0|]. split; [reflexivity|].
  cbn [squeeze shape]. apply shape_size_squeeze.
Qed.

Lemma call_result_has_no_axis_of_length_one_witness :
  exists r st',
    __call__ zncc_metric (np32 0 [2; 2]%nat) (np32 1 [2; 2]%nat) example_store
    = Ok (r, st') /\
    shape r = [] /\ (1%nat ∉ shape r).
Proof.
  destruct (__call__ zncc_metric (np32 0 [2; 2]%nat) (np32 1 [2; 2]%nat) example_store)
    as [[r st']|err] eqn:Hc; [|vm_compute in Hc; discriminate].
  exists r, st'. split; [reflexivity|]. split.
  - vm_compute in Hc. injection Hc as <- _. reflexivity.
  - exact (proj1 (call_result_has_no_axis_of_length_one _ _ _ _ _ _ Hc)).
Defined.

Lemma cast_and_promoted_no_promotion m e s st :
  _make_compatible_to_lower_scopes m = false ->
  exists e2 s2 st2,
    cast_and_promoted m e s st = (e2, s2, st2) /\
    shape e2 = shape e /\ shape s2 = shape s.
Proof.
  intros Hp. unfold cast_and_promoted. rewrite Hp.
  eexists _, _, _. split; [reflexivity|]. split; reflexivity.
Qed.

Lemma cast_and_promoted_ndim m e s st e2 s2 st2 :
  cast_and_promoted m e s st = (e2, s2, st2) ->
  ndim e <= ndim e2 /\ ndim s <= ndim s2.
Proof.
  unfold cast_and_promoted, _expand_dims_to_match_scope.
  destruct (_SCOPE_TO_EXPT_SIM_NDIM _ _) as [a b].
  destruct (_make_compatible_to_lower_scopes m); intros H; injection H as <- <- <-.
  - rewrite !ndim_newaxes. unfold ndim. cbn [shape]. lia.
  - unfold ndim. cbn [shape]. lia.
Qed.

(** X10.  A call of a flat metric raises before the compare function is
    reached when the experimental array has no navigation shape: with
    [KeyError] for every experimental array of rank above 4, and, when
    promotion is off, with [IndexError] for a 0-d and with [KeyError] for
    a 1-d experimental array.  The compare function plays no part. *)
Theorem flat_call_raises_without_navigation_shape
    (m : Metric) (e s : ndarray) (st : store) :
  metric_cls m = FlatSimilarityMetric ->
  (4 < ndim e -> __call__ m e s st = Raise KeyError) /\
  (_make_compatible_to_lower_scopes m = false ->
   (ndim e = 0 -> __call__ m e s st = Raise IndexError) /\
   (ndim e = 1 -> __call__ m e s st = Raise KeyError)).
Proof.
  intros Hcls.
  assert (Hraise : forall e2 s2 st2 err,
             _get_nav_shape e2 = Raise err ->
             (_measure m e2 s2 ≫= (fun r => mret (squeeze r))) st2 = Raise err).
  { intros e2 s2 st2 err Hn. unfold mbind, M_bind, _measure.
    rewrite Hcls, Hn. reflexivity. }
  split.
  - intros Hr. rewrite call_eq.
    destruct (cast_and_promoted m e s st) as [[e2 s2] st2] eqn:Hcp.
    apply cast_and_promoted_ndim in Hcp as [He _].
    apply Hraise.
    unfold _get_nav_shape, ndim in *.
    destruct (shape e2) as [|a [|b [|c [|d [|x l]]]]]; cbn [length] in He;
      try reflexivity; exfalso; lia.
  - intros Hp.
    destruct (cast_and_promoted_no_promotion m e s st Hp)
      as (e2 & s2 & st2 & Hcp & Hse & _).
    rewrite call_eq, Hcp.
    split; intros Hr; apply Hraise; unfold _get_nav_shape, ndim in *;
      rewrite Hse; destruct (shape e) as [|a [|b l]]; cbn [length] in Hr;
      try reflexivity; exfalso; lia.
Qed.

Lemma flat_call_raises_without_navigation_shape_witness :
  __call__ (make_similarity_metric flat_dot true MANY_TO_MANY true true float32)
    (np32 0 [1; 1; 1; 2; 2]%nat) (np32 1 [2; 2]%nat) example_store
  = Raise KeyError.
Proof.
  apply (proj1 (flat_call_raises_without_navigation_shape
                  (make_similarity_metric flat_dot true MANY_TO_MANY true true float32)
                  (np32 0 [1; 1; 1; 2; 2]%nat) (np32 1 [2; 2]%nat) example_store
                  eq_refl)).
  reflexivity.
Defined.

(* ===================================================================== *)
(** * Shapes returned by the utilities and by the registered metrics *)
(* ===================================================================== *)

Lemma utility_returns_shapes (flat : bool) e s st e' s' st' :
  utility_returns e s flat st e' s' st' ->
  let '(te, ts) := _SCOPE_TO_EXPT_SIM_NDIM
                     (if flat then FlatSimilarityMetric else SimilarityMetric)
                     MANY_TO_MANY in
  (1%nat ∉ shape e ++ shape s -> shape e' = shape e /\ shape s' = shape s) /\
  (1%nat ∈ shape e ++ shape s ->
   shape e' = replicate (Z.to_nat (te - ndim e)) 1%nat ++ shape e /\
   shape s' = replicate (Z.to_nat (ts - ndim s)) 1%nat ++ shape s).
Proof.
  unfold utility_returns, _expand_dims_to_many_to_many.
  destruct (_SCOPE_TO_EXPT_SIM_NDIM _ _) as [te ts].
  cbn [getitem_newaxes squeeze shape]. intros (He & Hs & _).
  unfold no_singleton in *. split; intros Hin.
  - rewrite (bool_decide_eq_false_2 _ Hin) in He, Hs. cbn [negb] in He, Hs.
    rewrite elem_of_app in Hin.
    rewrite filter_replicate_ones, filter_no_singleton in He by tauto.
    rewrite filter_replicate_ones, filter_no_singleton in Hs by tauto.
    auto.
  - rewrite (bool_decide_eq_true_2 _ Hin) in He, Hs. cbn [negb] in He, Hs. auto.
Qed.

(** X11.  For inputs of any rank, [_zero_mean] and [_normalize] return
    arrays of the shapes of the inputs when no axis of either input has
    length one; as soon as one axis of one input has length one, both
    returned arrays keep the axes added by the promotion to many-to-many,
    so that a single pattern of shape (1, n) comes back with rank 4. *)
Theorem utilities_return_input_shapes_or_promoted_shapes
    (flat : bool) (e s : ndarray) (st : store) :
  let '(te, ts) := _SCOPE_TO_EXPT_SIM_NDIM
                     (if flat then FlatSimilarityMetric else SimilarityMetric)
                     MANY_TO_MANY in
  (exists e' s' st',
     _zero_mean e s flat st = Ok ((e', s'), st') /\
     (1%nat ∉ shape e ++ shape s -> shape e' = shape e /\ shape s' = shape s) /\
     (1%nat ∈ shape e ++ shape s ->
      shape e' = replicate (Z.to_nat (te - ndim e)) 1%nat ++ shape e /\
      shape s' = replicate (Z.to_nat (ts - ndim s)) 1%nat ++ shape s)) /\
  (exists e' s' st',
     _normalize e s flat st = Ok ((e', s'), st') /\
     (1%nat ∉ shape e ++ shape s -> shape e' = shape e /\ shape s' = shape s) /\
     (1%nat ∈ shape e ++ shape s ->
      shape e' = replicate (Z.to_nat (te - ndim e)) 1%nat ++ shape e /\
      shape s' = replicate (Z.to_nat (ts - ndim s)) 1%nat ++ shape s)).
Proof.
  destruct (zero_mean_returns e s flat st) as (e1 & s1 & st1 & Heq1 & Hr1).
  destruct (normalize_returns e s flat st) as (e2 & s2 & st2 & Heq2 & Hr2).
  apply utility_returns_shapes in Hr1, Hr2.
  destruct (_SCOPE_TO_EXPT_SIM_NDIM _ _) as [te ts].
  split.
  - exists e1, s1, st1. split; [exact Heq1 | exact Hr1].
  - exists e2, s2, st2. split; [exact Heq2 | exact Hr2].
Qed.

Lemma utilities_return_input_shapes_or_promoted_shapes_witness :
  exists e' s' st',
    _zero_mean (np32 4 [1; 2]%nat) (np32 0 [2; 2]%nat) false example_store
    = Ok ((e', s'), st') /\
    shape e' = [1; 1; 1; 2]%nat /\ shape s' = [1; 2; 2]%nat.
Proof.
  pose proof (utilities_return_input_shapes_or_promoted_shapes false
                (np32 4 [1; 2]%nat) (np32 0 [2; 2]%nat) example_store) as H.
  cbn [_SCOPE_TO_EXPT_SIM_NDIM] in H.
  destruct H as [(e' & s' & st' & Heq & _ & Hin) _].
  exists e', s', st'. split; [exact Heq|].
  apply Hin. cbn [np32 shape app]. in_list.
Defined.

Lemma einsum_eq a b st ni nj nk nl nm :
  shape a = [ni; nj; nk; nl] ->
  shape b = [nm; nk; nl] ->
  exists xs,
    einsum_ijkl_mkl_ijm a b st
    = Ok (mk_array Dask (result_type (dt a) (dt b)) (length st) [ni; nj; nm],
          st ++ [xs]) /\
    length xs = shape_size [ni; nj; nm].
Proof.
  intros Ha Hb. unfold einsum_ijkl_mkl_ijm, label_dim. rewrite Ha, Hb.
  rewrite !decide_True by reflexivity.
  cbv [mbind M_bind read alloc].
  eexists. split; [reflexivity|].
  rewrite length_fmap. apply length_indices.
Qed.

Lemma contraction_returns (e s : ndarray) st a b c d n :
  shape e = [a; b; c; d] ->
  shape s = [n; c; d] ->
  exists r st',
    (einsum_ijkl_mkl_ijm e s ≫= (fun z =>
       if isinstance_ndarray e && isinstance_ndarray s then compute z else mret z)) st
    = Ok (r, st') /\
    shape r = [a; b; n] /\
    dt r = result_type (dt e) (dt s) /\
    wf st' r.
Proof.
  intros He Hs. destruct (einsum_eq e s st a b c d n He Hs) as (xs & Hz & Hlen).
  rewrite (bind_eq _ _ _ _ _ Hz).
  destruct (isinstance_ndarray e && isinstance_ndarray s).
  - rewrite compute_eq. cbn [dt shape]. eexists _, _. split; [reflexivity|].
    repeat split.
    + cbn [base]. rewrite !length_app. cbn [length]. lia.
    + rewrite data_alloc, data_alloc. exact Hlen.
  - eexists _, _. split; [reflexivity|]. repeat split.
    + cbn [base]. rewrite length_app. cbn [length]. lia.
    + rewrite data_alloc. exact Hlen.
Qed.

Lemma utility_keeps_many_to_many e s st e' s' st' a b c d n :
  shape e = [a; b; c; d] ->
  shape s = [n; c; d] ->
  utility_returns e s false st e' s' st' ->
  shape e' = [a; b; c; d] /\ shape s' = [n; c; d] /\
  dt e' = dt e /\ dt s' = dt s.
Proof.
  intros He Hs Hret.
  destruct (many_to_many_shapes_kept e s false st e' s' st') as [H1 H2];
    [unfold ndim; rewrite He; reflexivity
    |unfold ndim; rewrite Hs; reflexivity
    |exact Hret|].
  destruct (utility_returns_kinds _ _ _ _ _ _ _ Hret) as (_ & _ & Hd1 & Hd2).
  rewrite H1, H2. auto.
Qed.

Lemma metric_func_returns (f : compare_fn) e s st a b c d n :
  f = _zncc_einsum \/ f = _ndp_einsum ->
  shape e = [a; b; c; d] ->
  shape s = [n; c; d] ->
  exists r st',
    f e s st = Ok (r, st') /\
    shape r = [a; b; n] /\
    dt r = result_type (dt e) (dt s) /\
    wf st' r.
Proof.
  intros Hf He Hs. destruct Hf as [-> | ->].
  - unfold _zncc_einsum.
    destruct (zero_mean_returns e s false st) as (e1 & s1 & st1 & Heq1 & Hr1).
    rewrite (bind_eq _ _ _ _ _ Heq1).
    destruct (utility_keeps_many_to_many _ _ _ _ _ _ _ _ _ _ _ He Hs Hr1)
      as (He1 & Hs1 & Hd1 & Hd1').
    destruct (normalize_returns e1 s1 false st1) as (e2 & s2 & st2 & Heq2 & Hr2).
    rewrite (bind_eq _ _ _ _ _ Heq2).
    destruct (utility_keeps_many_to_many _ _ _ _ _ _ _ _ _ _ _ He1 Hs1 Hr2)
      as (He2 & Hs2 & Hd2 & Hd2').
    destruct (contraction_returns e2 s2 st2 a b c d n He2 Hs2)
      as (r & st' & Hr & Hshape & Hdt & Hwf).
    exists r, st'. split; [exact Hr|]. split; [exact Hshape|].
    split; [|exact Hwf]. rewrite Hdt. congruence.
  - unfold _ndp_einsum.
    destruct (normalize_returns e s false st) as (e2 & s2 & st2 & Heq2 & Hr2).
    rewrite (bind_eq _ _ _ _ _ Heq2).
    destruct (utility_keeps_many_to_many _ _ _ _ _ _ _ _ _ _ _ He Hs Hr2)
      as (He2 & Hs2 & Hd2 & Hd2').
    destruct (contraction_returns e2 s2 st2 a b c d n He2 Hs2)
      as (r & st' & Hr & Hshape & Hdt & Hwf).
    exists r, st'. split; [exact Hr|]. split; [exact Hshape|].
    split; [|exact Hwf]. rewrite Hdt. congruence.
Qed.

(** X12.  A call of a registered metric on an experimental array that,
    with leading axes of length one up to rank 4, has shape
    (ny, nx, sy, sx), and a simulated array that, up to rank 3, has shape
    (N, sy, sx), returns: the result is a float32 array of shape
    (ny, nx, N) without its axes of length one, backed by as many values.
    This covers the four nested scopes. *)
Theorem registered_metric_returns_navigation_by_simulated
    (m : Metric) (e s : ndarray) (st : store) (ny nx sy sx N : nat) :
  m = zncc_metric \/ m = ndp_metric ->
  replicate (Z.to_nat (4 - ndim e)) 1%nat ++ shape e = [ny; nx; sy; sx] ->
  replicate (Z.to_nat (3 - ndim s)) 1%nat ++ shape s = [N; sy; sx] ->
  exists r st',
    __call__ m e s st = Ok (r, st') /\
    shape r = filter (fun k => k <> 1%nat) [ny; nx; N] /\
    dt r = float32 /\
    wf st' r.
Proof.
  intros Hm He Hs.
  assert (Hfields : metric_cls m = SimilarityMetric /\
                    _make_compatible_to_lower_scopes m = true /\
                    scope m = MANY_TO_MANY /\ _dtype_out m = float32 /\
                    (_metric_func m = _zncc_einsum \/ _metric_func m = _ndp_einsum))
    by (destruct Hm as [-> | ->]; repeat split; [left | right]; reflexivity).
  destruct Hfields as (Hcls & Hp & Hsc & Hdt & Hf).
  rewrite (call_nested_eq m e s st Hcls).
  unfold cast_and_promoted, _expand_dims_to_match_scope.
  rewrite Hp, Hcls, Hsc, Hdt. cbn [_SCOPE_TO_EXPT_SIM_NDIM].
  set (st2 := (st ++ _) ++ _).
  set (e2 := getitem_newaxes _ _). set (s2 := getitem_newaxes _ _).
  destruct (metric_func_returns (_metric_func m) e2 s2 st2 ny nx sy sx N Hf He Hs)
    as (r & st' & Hr & Hshape & Hdr & Hwf).
  rewrite Hr. cbn [squeezed].
  exists (squeeze r), st'. split; [reflexivity|].
  split; [cbn [squeeze shape]; rewrite Hshape; reflexivity|].
  split; [cbn [squeeze dt]; rewrite Hdr; reflexivity|].
  apply wf_squeeze. exact Hwf.
Qed.

Lemma registered_metric_returns_navigation_by_simulated_witness :
  exists r st',
    __call__ zncc_metric (np32 0 [2; 2]%nat) (np32 1 [1; 2; 2]%nat) example_store
    = Ok (r, st') /\
    shape r = [].
Proof.
  destruct (registered_metric_returns_navigation_by_simulated zncc_metric
              (np32 0 [2; 2]%nat) (np32 1 [1; 2; 2]%nat) example_store
              1 1 2 2 1 (or_introl eq_refl) eq_refl eq_refl)
    as (r & st' & Hc & Hshape & _).
  exists r, st'. split; [exact Hc | exact Hshape].
Defined.

(* ===================================================================== *)
(** * What a call leaves unchanged, for any compare function *)
(* ===================================================================== *)

Lemma reshape_Ok_view a dims st a' st' :
  reshape a dims st = Ok (a', st') ->
  st' = st /\ base a' = base a /\ kind a' = kind a.
Proof.
  unfold reshape.
  destruct (dims_of_numbers _ _) as [zs|err]; [|discriminate].
  destruct (resolve_shape _ _ _) as [sh|err]; [|discriminate].
  intros H. injection H as <- <-. repeat split.
Qed.

Lemma measure_Ok_args m e s st r st' :
  _measure m e s st = Ok (r, st') ->
  exists a b,
    base a = base e /\ kind a = kind e /\
    base b = base s /\ kind b = kind s /\
    _metric_func m a b st = Ok (r, st').
Proof.
  unfold _measure. destruct (metric_cls m).
  - intros H. exists e, s. repeat split. exact H.
  - destruct (_get_nav_shape e) as [nav|err]; [|discriminate].
    intros H. apply bind_Ok_inv in H as (a & st1 & Ha & H).
    apply bind_Ok_inv in H as (b & st2 & Hb & H).
    apply reshape_Ok_view in Ha as (-> & Hba & Hka).
    apply reshape_Ok_view in Hb as (-> & Hbb & Hkb).
    exists a, b. repeat split; assumption.
Qed.

Lemma flat_dot_writes_only_its_arguments : writes_only_its_arguments flat_dot.
Proof.
  intros a b st r st' H. cbv [flat_dot mbind M_bind read alloc] in H.
  injection H as _ <-. apply preserves_alloc.
Qed.

(** X13.  For every metric, nested or flat, whose compare function writes
    to no buffer but those of its two arguments, a call that returns has
    changed no buffer that existed before the call: every array the caller
    held, the two inputs included, has the element values it had.  The
    compare function is run on the casts made by [astype], never on the
    caller's arrays. *)
Theorem call_leaves_every_existing_array_unchanged
    (m : Metric) (e s : ndarray) (st : store) (r : ndarray) (st' : store) :
  writes_only_its_arguments (_metric_func m) ->
  __call__ m e s st = Ok (r, st') ->
  preserves (fun _ => True) st st' /\
  (forall x, (base x < length st)%nat -> data st' x = data st x).
Proof.
  intros Hf. rewrite call_eq.
  destruct (cast_and_promoted m e s st) as [[e2 s2] st2] eqn:Hcp.
  apply cast_and_promoted_facts in Hcp
    as (_ & _ & _ & _ & Hbe & Hbs & _ & Hp0).
  intros H. apply bind_Ok_inv in H as (r0 & st3 & Hr0 & H).
  injection H as _ <-.
  apply measure_Ok_args in Hr0 as (a & b & Hba & _ & Hbb & _ & Hr0).
  apply Hf in Hr0.
  assert (Hp : preserves (fun _ => True) st st3).
  { destruct Hp0 as [Hl0 Hp0], Hr0 as [Hl1 Hw]. split; [lia|].
    intros k Hk _. rewrite Hw.
    - apply Hp0; [exact Hk | exact I].
    - lia.
    - unfold not_buffer_of. rewrite Hba, Hbb, Hbe, Hbs. split; intros _; lia. }
  split; [exact Hp|].
  intros x Hx. exact (data_preserved _ _ _ _ Hp Hx I).
Qed.

Lemma call_leaves_every_existing_array_unchanged_witness :
  let m := make_similarity_metric flat_dot true MANY_TO_MANY true true float32 in
  let e := np32 0 [1; 1; 2; 2]%nat in
  let s := np32 1 [1; 2; 2]%nat in
  exists r st',
    __call__ m e s example_store = Ok (r, st') /\
    data st' e = f32 <$> [1; 2; 3; 4] /\
    data st' s = f32 <$> [1; 2; 3; 5].
Proof.
  cbv zeta.
  destruct (__call__ (make_similarity_metric flat_dot true MANY_TO_MANY true true float32)
              (np32 0 [1; 1; 2; 2]%nat) (np32 1 [1; 2; 2]%nat) example_store)
    as [[r st']|err] eqn:Hc; [|vm_compute in Hc; discriminate].
  destruct (call_leaves_every_existing_array_unchanged
              (make_similarity_metric flat_dot true MANY_TO_MANY true true float32)
              _ _ _ _ _ flat_dot_writes_only_its_arguments Hc) as [_ Hdata].
  exists r, st'. split; [reflexivity|]. split.
  - rewrite Hdata; [reflexivity | cbn; lia].
  - rewrite Hdata; [reflexivity | cbn; lia].
Defined.

(* ===================================================================== *)
(** * Flat many-to-one metrics *)
(* ===================================================================== *)

Lemma flat_call_above_rank_4_raises (m : Metric) (e s : ndarray) (st : store) :
  metric_cls m = FlatSimilarityMetric ->
  4 < ndim e ->
  __call__ m e s st = Raise KeyError.
Proof.
  intros Hcls Hr. rewrite call_eq.
  destruct (cast_and_promoted m e s st) as [[e2 s2] st2] eqn:Hcp.
  apply cast_and_promoted_ndim in Hcp as [He _].
  unfold mbind, M_bind, _measure. rewrite Hcls.
  unfold _get_nav_shape, ndim in *.
  destruct (shape e2) as [|a [|b [|c [|d [|x l]]]]]; cbn [length] in He;
    try reflexivity; exfalso; lia.
Qed.

(** X14.  A flat metric made by [make_similarity_metric] with scope
    many-to-one accepts, through [_is_compatible], the inputs whose ranks
    convert to the pair (3, 1) listed for its scope, that is an
    experimental array of rank 6 or 7 with a simulated array of rank 2;
    every call on such inputs raises [KeyError], whatever the compare
    function, since [_get_nav_shape] knows no rank above 4.  Without
    promotion these are the only inputs it accepts, so no input that the
    metric declares compatible can be measured. *)
Theorem flat_many_to_one_accepted_ranks_raise_key_error
    (metric_func : compare_fn) (greater_is_better promote : bool)
    (dtype_out : dtype) (e s : ndarray) (st : store) :
  let m := make_similarity_metric metric_func greater_is_better MANY_TO_ONE
             true promote dtype_out in
  ((ndim e = 6 \/ ndim e = 7) /\ ndim s = 2 ->
   _is_compatible m (ndim e) (ndim s) = true /\
   __call__ m e s st = Raise KeyError) /\
  (promote = false ->
   _is_compatible m (ndim e) (ndim s) = true ->
   ((ndim e = 6 \/ ndim e = 7) /\ ndim s = 2) /\
   __call__ m e s st = Raise KeyError).
Proof.
  cbv zeta.
  set (m := make_similarity_metric _ _ _ _ _ _).
  assert (Hcls : metric_cls m = FlatSimilarityMetric) by reflexivity.
  split.
  - intros [He Hs]. split.
    + apply is_compatible_spec. exists MANY_TO_ONE.
      split; [|left; reflexivity].
      apply lookup_scope_iff_ranks. cbn [m make_similarity_metric flat metric_cls].
      cbn [_SCOPE_TO_EXPT_SIM_NDIM]. rewrite Hs.
      destruct He as [-> | ->]; reflexivity.
    + apply flat_call_above_rank_4_raises; [exact Hcls | lia].
  - intros -> Hc. apply is_compatible_spec in Hc as (sc & Hsc & Hal).
    destruct Hal as [-> | [Hf _]]; [|discriminate Hf].
    apply lookup_scope_iff_ranks in Hsc.
    cbn [m make_similarity_metric flat metric_cls scope _SCOPE_TO_EXPT_SIM_NDIM] in Hsc.
    injection Hsc as He Hs.
    assert (Hranks : (ndim e = 6 \/ ndim e = 7) /\ ndim s = 2)
      by (split; [Z.div_mod_to_equations|]; lia).
    split; [exact Hranks|].
    apply flat_call_above_rank_4_raises; [exact Hcls | lia].
Qed.

Lemma flat_many_to_one_accepted_ranks_raise_key_error_witness :
  let m := make_similarity_metric flat_dot true MANY_TO_ONE true false float32 in
  let e := np32 0 [1; 1; 1; 1; 2; 2]%nat in
  let s := np32 1 [2; 2]%nat in
  _is_compatible m (ndim e) (ndim s) = true /\
  __call__ m e s example_store = Raise KeyError.
Proof.
  cbv zeta.
  apply (proj1 (flat_many_to_one_accepted_ranks_raise_key_error flat_dot true false
                  float32 (np32 0 [1; 1; 1; 1; 2; 2]%nat) (np32 1 [2; 2]%nat)
                  example_store)).
  split; [left; reflexivity | reflexivity].
Defined.
